(** * Royal Blue Rooms: the booking form's validation schema and submit handler

    This development embeds [src/pages/BookingForm.tsx]:

    - [bookingSchema], the zod object schema with its cross-field refinement
      (lines 15-32), together with the part of zod's parsing discipline the
      schema exercises (string checks, enum, optional, object merge,
      refinement, [safeParse]) and the resolver that turns zod issues into
      the form's per-field [errors] object (lines 46-48);
    - [onSubmit], the submit handler (lines 50-72), as a computation in a
      small state-and-exception monad, with the room-type dropdown's
      [onValueChange] (lines 106-109) and the [min] attribute of the date
      inputs (lines 136 and 153);
    - the route table of [src/App.tsx] (lines 28-36) with the router's
      ranking and path matching;
    - the booking store behind [useBookings()], whose module
      ([contexts/BookingContext]) is not among the sources: it is modelled
      from the written specification and marked as such.

    Two platform functions are left abstract wherever a statement is meant
    for every JavaScript engine: the string-to-time-value conversion of
    [new Date(s)] and the address pattern behind [z.string().email()].  A
    concrete instance of each is supplied for evaluating examples. *)

From Stdlib Require Import String Ascii ZArith List Bool Lia.
From stdpp Require Import gmap strings list.
Import ListNotations.

Local Open Scope string_scope.
Local Open Scope list_scope.
Local Open Scope Z_scope.

(* ===================================================================== *)
(** * JavaScript values and completions *)
(* ===================================================================== *)

(** Values a property of the submitted object can hold. *)
Inductive JsValue : Type :=
| JUndefined
| JNull
| JBoolean (b : bool)
| JNumber (n : Z)
| JString (s : string).

(** The time value of a [Date] object: a number of milliseconds, or [None]
    for [NaN] (an invalid [Date]). *)
Definition TimeValue : Type := option Z.

(** [a > b] on two [Date] objects: both are converted to their time values
    and compared as numbers; a comparison involving [NaN] is [false]. *)
Definition Date_gt (a b : TimeValue) : bool :=
  match a, b with
  | Some x, Some y => y <? x
  | _, _ => false
  end.

(** How a call ends: normally with a value, or abruptly with a thrown one. *)
Inductive Completion (A : Type) : Type :=
| Normal (a : A)
| Throw (e : JsValue).
Arguments Normal {A} a.
Arguments Throw {A} e.

(* ===================================================================== *)
(** * Anchored patterns: the fragment of regular expressions in the schema *)
(* ===================================================================== *)

(** A character class given by an inclusive range, as in [[0-9]]. *)
Inductive CharClass : Type :=
| Range (lo hi : ascii).

Definition classMatches (c : CharClass) (a : ascii) : bool :=
  match c with
  | Range lo hi =>
      (N_of_ascii lo <=? N_of_ascii a)%N && (N_of_ascii a <=? N_of_ascii hi)%N
  end.

(** A class with a fixed repetition count, as in [[0-9]{10}]. *)
Record Piece : Type := { cls : CharClass; times : nat }.

(** Consume exactly [n] characters of class [c] from the front of [s]. *)
Fixpoint consume (c : CharClass) (n : nat) (s : string) : option string :=
  match n with
  | O => Some s
  | S n' =>
      match s with
      | EmptyString => None
      | String a rest => if classMatches c a then consume c n' rest else None
      end
  end.

(** [^p1 p2 ... pk$] without the multiline flag: the pieces must cover the
    whole input; [$] matches only at the very end of the string. *)
Fixpoint regexTest (ps : list Piece) (s : string) : bool :=
  match ps with
  | [] => match s with EmptyString => true | String _ _ => false end
  | p :: ps' =>
      match consume (cls p) (times p) s with
      | Some rest => regexTest ps' rest
      | None => false
      end
  end.

(** [/^[0-9]{10}$/] *)
Definition contactNumberRegex : list Piece :=
  [ {| cls := Range "0" "9"; times := 10 |} ].

Definition isAsciiDigit (a : ascii) : bool := classMatches (Range "0" "9") a.

Fixpoint allDigits (s : string) : bool :=
  match s with
  | EmptyString => true
  | String a rest => isAsciiDigit a && allDigits rest
  end.

(* ===================================================================== *)
(** * Zod: issues, parse status and the schema combinators in use *)
(* ===================================================================== *)

(** The keys of the schema's shape, in declaration order. *)
Module Key.
Inductive t : Type :=
| guestName | roomType | checkInDate | checkOutDate
| contactNumber | email | idProof.

Definition eqb (a b : t) : bool :=
  match a, b with
  | guestName, guestName | roomType, roomType
  | checkInDate, checkInDate | checkOutDate, checkOutDate
  | contactNumber, contactNumber | email, email | idProof, idProof => true
  | _, _ => false
  end.
End Key.

Definition Path : Type := list Key.t.

Fixpoint pathEqb (p q : Path) : bool :=
  match p, q with
  | [], [] => true
  | a :: p', b :: q' => Key.eqb a b && pathEqb p' q'
  | _, _ => false
  end.

Inductive ZodIssueCode : Type :=
| invalid_type | invalid_enum_value | too_small | too_big
| invalid_string | custom.

(** An issue's message: one written in the schema, or the library's own
    default text for the issue code. *)
Inductive Message : Type :=
| Msg (text : string)
| DefaultMessage.

Record ZodIssue : Type := {
  code : ZodIssueCode;
  path : Path;
  message : Message
}.

(** The three outcomes of a zod parser: [INVALID] (status "aborted", no
    value), [DIRTY] (issues were added but a value is still produced) and
    [OK]. *)
Inductive ParseReturn (A : Type) : Type :=
| INVALID
| DIRTY (value : A)
| OK (value : A).
Arguments INVALID {A}.
Arguments DIRTY {A} value.
Arguments OK {A} value.

(** A parser's outcome together with the issues it added to the context. *)
Definition Parsed (A : Type) : Type := (ParseReturn A * list ZodIssue)%type.

(** [ParseStatus.mergeObjectSync], one pair at a time: an aborted member
    aborts the object, a dirty member makes it dirty. *)
Definition mergePair {A B} (f : ParseReturn (A -> B)) (x : ParseReturn A)
  : ParseReturn B :=
  match f, x with
  | INVALID, _ | _, INVALID => INVALID
  | OK g, OK a => OK (g a)
  | OK g, DIRTY a | DIRTY g, OK a | DIRTY g, DIRTY a => DIRTY (g a)
  end.

(** The checks a [z.string()] carries in this schema. *)
Inductive StringCheck : Type :=
| ck_min (value : nat) (msg : string)
| ck_max (value : nat) (msg : string)
| ck_regex (regex : list Piece) (msg : string)
| ck_email (msg : string).

(** The result of [safeParse]. *)
Inductive SafeParseReturn (A : Type) : Type :=
| Success (data : A)
| Failure (issues : list ZodIssue).
Arguments Success {A} data.
Arguments Failure {A} issues.

(** [z.enum(values, { required_error })]: a non-string input is an
    [invalid_type] issue (with [required_error] when the input is
    [undefined]); a string outside [values] is an [invalid_enum_value]
    issue.  Both return [INVALID]. *)
Definition ZodEnum_parse (values : list string) (required_error : option string)
    (p : Path) (input : JsValue) : Parsed string :=
  match input with
  | JString s =>
      if existsb (String.eqb s) values then (OK s, [])
      else (INVALID, [ {| code := invalid_enum_value; path := p;
                          message := DefaultMessage |} ])
  | JUndefined =>
      (INVALID, [ {| code := invalid_type; path := p;
                     message := match required_error with
                                | Some m => Msg m
                                | None => DefaultMessage
                                end |} ])
  | _ => (INVALID, [ {| code := invalid_type; path := p;
                        message := DefaultMessage |} ])
  end.

(** [schema.optional()]: [undefined] is accepted as it is. *)
Definition ZodOptional_parse {A} (inner : JsValue -> Parsed A)
    (input : JsValue) : Parsed (option A) :=
  match input with
  | JUndefined => (OK None, [])
  | _ =>
      match inner input with
      | (INVALID, iss) => (INVALID, iss)
      | (DIRTY v, iss) => (DIRTY (Some v), iss)
      | (OK v, iss) => (OK (Some v), iss)
      end
  end.

(** [schema.refine(check, { message, path })]: the check is not run when the
    inner schema aborted; otherwise a failing check adds one [custom] issue
    at the inner path extended by [path] and makes the result dirty. *)
Definition ZodEffects_refine {A} (check : A -> bool) (msg : string)
    (sub : Path) (p : Path) (inner : Parsed A) : Parsed A :=
  match inner with
  | (INVALID, iss) => (INVALID, iss)
  | (DIRTY v, iss) =>
      if check v then (DIRTY v, iss)
      else (DIRTY v, iss ++ [ {| code := custom; path := p ++ sub;
                                 message := Msg msg |} ])
  | (OK v, iss) =>
      if check v then (OK v, iss)
      else (DIRTY v, iss ++ [ {| code := custom; path := p ++ sub;
                                 message := Msg msg |} ])
  end.

(** [safeParse]: a success needs status "valid". *)
Definition handleResult {A} (r : Parsed A) : SafeParseReturn A :=
  match r with
  | (OK v, _) => Success v
  | (_, iss) => Failure iss
  end.

(* ===================================================================== *)
(** * The resolver: from zod issues to the form's [errors] object *)
(* ===================================================================== *)

Record FieldError : Type := { fe_type : ZodIssueCode; fe_message : Message }.

(** The [errors] object, keyed by joined path, in insertion order. *)
Definition FieldErrors : Type := list (Path * FieldError).

Fixpoint errorsGet (errors : FieldErrors) (p : Path) : option FieldError :=
  match errors with
  | [] => None
  | (q, e) :: rest => if pathEqb q p then Some e else errorsGet rest p
  end.

(** [parseErrorSchema] with the default criteria mode: the first issue of
    each path is kept, later ones for the same path are dropped. *)
Fixpoint parseErrorSchema (zodErrors : list ZodIssue) (errors : FieldErrors)
  : FieldErrors :=
  match zodErrors with
  | [] => errors
  | e :: rest =>
      parseErrorSchema rest
        (match errorsGet errors (path e) with
         | Some _ => errors
         | None => errors ++ [ (path e, {| fe_type := code e;
                                           fe_message := message e |}) ]
         end)
  end.

(* ===================================================================== *)
(** * The submitted object and the schema's output *)
(* ===================================================================== *)

(** The object given to the schema: whatever the form boundary holds under
    each of the seven keys ([JUndefined] for a key that is absent). *)
Record RawBooking : Type := {
  raw_guestName : JsValue;
  raw_roomType : JsValue;
  raw_checkInDate : JsValue;
  raw_checkOutDate : JsValue;
  raw_contactNumber : JsValue;
  raw_email : JsValue;
  raw_idProof : JsValue
}.

(** [BookingFormData = z.infer<typeof bookingSchema>] *)
Record BookingFormData : Type := {
  guestName : string;
  roomType : string;
  checkInDate : string;
  checkOutDate : string;
  contactNumber : string;
  email : string;
  idProof : option string
}.

(** The [{ values, errors }] pair a resolver hands back to the form. *)
Record ResolverResult : Type := {
  values : option BookingFormData;
  errors : FieldErrors
}.

(** The four room types of the enumeration (line 17). *)
Definition roomTypes : list string := ["Single"; "Double"; "Deluxe"; "Suite"].

(** A raw object is well typed when zod's type-level checks pass on every
    key: the six string keys hold strings, [roomType] holds one of the four
    values, and [idProof] is a string or absent. *)
Definition isString (v : JsValue) : bool :=
  match v with JString _ => true | _ => false end.

Definition wellTyped (input : RawBooking) : bool :=
  isString (raw_guestName input)
  && match raw_roomType input with
     | JString s => existsb (String.eqb s) roomTypes
     | _ => false
     end
  && isString (raw_checkInDate input)
  && isString (raw_checkOutDate input)
  && isString (raw_contactNumber input)
  && isString (raw_email input)
  && match raw_idProof input with
     | JUndefined | JString _ => true
     | _ => false
     end.

(** The string under a key, when there is one. *)
Definition asString (v : JsValue) : option string :=
  match v with JString s => Some s | _ => None end.

(** The object [z.object] produces for a well-typed input, whether or not
    string-level checks failed on it: this is what the refinement's callback
    receives as [data]. *)
Definition typedView (input : RawBooking) : option BookingFormData :=
  match asString (raw_guestName input),
        (match raw_roomType input with
         | JString s => if existsb (String.eqb s) roomTypes then Some s else None
         | _ => None
         end),
        asString (raw_checkInDate input),
        asString (raw_checkOutDate input),
        asString (raw_contactNumber input),
        asString (raw_email input),
        (match raw_idProof input with
         | JUndefined => Some None
         | JString s => Some (Some s)
         | _ => None
         end) with
  | Some g, Some r, Some ci, Some co, Some cn, Some em, Some ip =>
      Some {| guestName := g; roomType := r; checkInDate := ci;
              checkOutDate := co; contactNumber := cn; email := em;
              idProof := ip |}
  | _, _, _, _, _, _, _ => None
  end.

(** The value a parser produced, if it did not abort. *)
Definition valueOf {A} (r : ParseReturn A) : option A :=
  match r with
  | INVALID => None
  | DIRTY v | OK v => Some v
  end.

(** Status and issue list agree: [OK] exactly when no issue was added. *)
Definition consistent {A} (r : Parsed A) : Prop :=
  match fst r with
  | OK _ => snd r = []
  | _ => snd r <> []
  end.

(** The issue the refinement adds when its callback returns [false]
    (lines 29-32). *)
Definition crossFieldIssue : ZodIssue :=
  {| code := custom; path := [Key.checkOutDate];
     message := Msg "Check-out date must be after check-in date" |}.

(** A string that is present: not the empty string. *)
Definition nonEmpty (s : string) : bool :=
  match s with EmptyString => false | String _ _ => true end.

(** A date key is filled in: it holds a string that is not empty. *)
Definition present (v : JsValue) : bool :=
  match v with JString s => nonEmpty s | _ => false end.

(** The ten ASCII digits. *)
Definition digitChars : list ascii :=
  [ "0"; "1"; "2"; "3"; "4"; "5"; "6"; "7"; "8"; "9" ]%char.

(* ===================================================================== *)
(** * A concrete platform for evaluating examples *)
(* ===================================================================== *)

(** The date-only forms of the ECMAScript date-time string format
    ([YYYY], [YYYY-MM], [YYYY-MM-DD]), read as UTC midnight.  Every other
    string is mapped to [NaN] here; engines are free to accept more. *)
Definition digitValue (a : ascii) : option Z :=
  if isAsciiDigit a then Some (Z.of_N (N_of_ascii a) - 48) else None.

Fixpoint readDigits (n : nat) (acc : Z) (s : string) : option (Z * string) :=
  match n with
  | O => Some (acc, s)
  | S n' =>
      match s with
      | EmptyString => None
      | String a rest =>
          match digitValue a with
          | Some d => readDigits n' (10 * acc + d) rest
          | None => None
          end
      end
  end.

Definition isLeapYear (y : Z) : bool :=
  (y mod 4 =? 0) && (negb (y mod 100 =? 0) || (y mod 400 =? 0)).

Definition daysInMonth (y m : Z) : Z :=
  if m =? 2 then (if isLeapYear y then 29 else 28)
  else if (m =? 4) || (m =? 6) || (m =? 9) || (m =? 11) then 30
  else 31.

(** Days between 1970-01-01 and the given civil date. *)
Definition daysFromCivil (y m d : Z) : Z :=
  let y' := if m <=? 2 then y - 1 else y in
  let era := y' / 400 in
  let yoe := y' - era * 400 in
  let mp := (m + 9) mod 12 in
  let doy := (153 * mp + 2) / 5 + d - 1 in
  let doe := yoe * 365 + yoe / 4 - yoe / 100 + doy in
  era * 146097 + doe - 719468.

Definition msPerDay : Z := 86400000.

Definition makeDate (y m d : Z) : TimeValue :=
  if (1 <=? m) && (m <=? 12) && (1 <=? d) && (d <=? daysInMonth y m)
  then Some (daysFromCivil y m d * msPerDay)
  else None.

Definition isoDateParse (s : string) : TimeValue :=
  match readDigits 4 0 s with
  | None => None
  | Some (y, EmptyString) => makeDate y 1 1
  | Some (y, String sep1 r1) =>
      if negb (Ascii.eqb sep1 "-") then None else
      match readDigits 2 0 r1 with
      | None => None
      | Some (m, EmptyString) => makeDate y m 1
      | Some (m, String sep2 r2) =>
          if negb (Ascii.eqb sep2 "-") then None else
          match readDigits 2 0 r2 with
          | Some (d, EmptyString) => makeDate y m d
          | _ => None
          end
      end
  end.

(** A plain address shape, [local@domain.tld] without blanks, standing in
    for the library's address pattern when an example is evaluated. *)
Fixpoint noneOf (bad : list ascii) (s : string) : bool :=
  match s with
  | EmptyString => true
  | String a rest => negb (existsb (Ascii.eqb a) bad) && noneOf bad rest
  end.

Fixpoint splitAt (sep : ascii) (s : string) : option (string * string) :=
  match s with
  | EmptyString => None
  | String a rest =>
      if Ascii.eqb a sep then Some (EmptyString, rest)
      else match splitAt sep rest with
           | Some (l, r) => Some (String a l, r)
           | None => None
           end
  end.

Definition addressPattern (s : string) : bool :=
  match splitAt "@" s with
  | Some (String _ _ as loc, dom) =>
      noneOf [" "%char] loc && noneOf ["@"%char; " "%char] dom
      && match splitAt "." dom with
         | Some (String _ _, String _ _) => true
         | _ => false
         end
  | _ => false
  end.


(* ===================================================================== *)
(** * The booking store's data (from the written specification) *)
(* ===================================================================== *)

(** Modelled from the spec: the status values of section 4.2; the store's
    module is not among the sources. *)
Inductive Status : Type :=
| Pending | Confirmed | CheckedIn | CheckedOut | Cancelled.

(** Modelled from the spec: the Booking entity of section 3 — the validated
    field values plus the identity, status and timestamps the store adds. *)
Record Booking : Type := {
  booking_id : N;
  details : BookingFormData;
  status : Status;
  createdAt : Z;
  updatedAt : option Z
}.

(** Modelled from the spec: the store's state, the in-memory map from id to
    record and the copy kept in the durable slot (section 6).  Storage
    faults are outside this model: a write to the slot goes through. *)
Record BookingStore : Type := {
  bookings : gmap N Booking;
  persisted : gmap N Booking
}.

(** Modelled from the spec: the error values of section 7 that the store's
    operations return. *)
Inductive StoreError : Type :=
| ValidationError (fieldErrors : list ZodIssue)
| NotFound
| InvalidTransition.

Inductive Result (T : Type) : Type :=
| Ok (value : T)
| Err (error : StoreError).
Arguments Ok {T} value.
Arguments Err {T} error.

(** Modelled from the spec: the lifecycle graph of section 4.2, "Confirmed
    -> CheckedIn; CheckedIn -> CheckedOut; Confirmed -> Cancelled; Pending
    -> Confirmed; Pending -> Cancelled". *)
Definition lifecycleEdges : list (Status * Status) :=
  [ (Confirmed, CheckedIn); (CheckedIn, CheckedOut); (Confirmed, Cancelled);
    (Pending, Confirmed); (Pending, Cancelled) ].

Definition statusEqb (a b : Status) : bool :=
  match a, b with
  | Pending, Pending | Confirmed, Confirmed | CheckedIn, CheckedIn
  | CheckedOut, CheckedOut | Cancelled, Cancelled => true
  | _, _ => false
  end.

Definition canTransition (from to : Status) : bool :=
  existsb (fun e => statusEqb (fst e) from && statusEqb (snd e) to)
          lifecycleEdges.

Definition isTerminal (s : Status) : bool :=
  match s with CheckedOut | Cancelled => true | _ => false end.

(** Modelled from the spec: [findById(id) -> Booking | NotFound]. *)
Definition findById (id : N) (s : BookingStore) : Result Booking :=
  match bookings s !! id with
  | Some b => Ok b
  | None => Err NotFound
  end.

(** Modelled from the spec: [transition(id, targetStatus)], "applies the
    adjacency rule above; persists on success"; a rejected request "leaves
    state unchanged". *)
Definition transition (id : N) (target : Status) (now : Z) (s : BookingStore)
  : BookingStore * Result Booking :=
  match bookings s !! id with
  | None => (s, Err NotFound)
  | Some b =>
      if canTransition (status b) target then
        let b' := {| booking_id := booking_id b; details := details b;
                     status := target; createdAt := createdAt b;
                     updatedAt := Some now |} in
        let m := <[id := b']> (bookings s) in
        ({| bookings := m; persisted := m |}, Ok b')
      else (s, Err InvalidTransition)
  end.

(* ===================================================================== *)
(** * The form: effects of the submit handler *)
(* ===================================================================== *)

(** The calls [onSubmit] makes on its surroundings, in the order made. *)
Inductive Effect : Type :=
| toast_success (title description : string)
| toast_error (title description : string)
| form_reset
| call_setRoomType (value : string)
| call_setTimeout (navigateTo : string) (delay : Z).

(** What a run of the handler can read and change: the state behind
    [useBookings()], the form's values, the component's [roomType] state,
    and the calls made so far. *)
Record World (Ctx : Type) : Type := {
  ctx : Ctx;
  formValues : RawBooking;
  roomTypeState : string;
  effects : list Effect
}.
Arguments ctx {Ctx} w.
Arguments formValues {Ctx} w.
Arguments roomTypeState {Ctx} w.
Arguments effects {Ctx} w.
Arguments Build_World {Ctx} ctx formValues roomTypeState effects.

(** [useForm] is given no default values: after [reset()] every key is
    absent again. *)
Definition defaultValues : RawBooking :=
  {| raw_guestName := JUndefined; raw_roomType := JUndefined;
     raw_checkInDate := JUndefined; raw_checkOutDate := JUndefined;
     raw_contactNumber := JUndefined; raw_email := JUndefined;
     raw_idProof := JUndefined |}.

(* ===================================================================== *)
(** * Sample submissions *)
(* ===================================================================== *)

(** The end-to-end scenario of the specification's section 8. *)
Definition janeDoe : RawBooking :=
  {| raw_guestName := JString "Jane Doe";
     raw_roomType := JString "Suite";
     raw_checkInDate := JString "2025-06-01";
     raw_checkOutDate := JString "2025-06-05";
     raw_contactNumber := JString "9876543210";
     raw_email := JString "jane@example.com";
     raw_idProof := JUndefined |}.

Definition with_guestName (v : JsValue) (c : RawBooking) : RawBooking :=
  {| raw_guestName := v; raw_roomType := raw_roomType c;
     raw_checkInDate := raw_checkInDate c;
     raw_checkOutDate := raw_checkOutDate c;
     raw_contactNumber := raw_contactNumber c; raw_email := raw_email c;
     raw_idProof := raw_idProof c |}.

Definition with_roomType (v : JsValue) (c : RawBooking) : RawBooking :=
  {| raw_guestName := raw_guestName c; raw_roomType := v;
     raw_checkInDate := raw_checkInDate c;
     raw_checkOutDate := raw_checkOutDate c;
     raw_contactNumber := raw_contactNumber c; raw_email := raw_email c;
     raw_idProof := raw_idProof c |}.

Definition with_checkInDate (v : JsValue) (c : RawBooking) : RawBooking :=
  {| raw_guestName := raw_guestName c; raw_roomType := raw_roomType c;
     raw_checkInDate := v;
     raw_checkOutDate := raw_checkOutDate c;
     raw_contactNumber := raw_contactNumber c; raw_email := raw_email c;
     raw_idProof := raw_idProof c |}.

Definition with_checkOutDate (v : JsValue) (c : RawBooking) : RawBooking :=
  {| raw_guestName := raw_guestName c; raw_roomType := raw_roomType c;
     raw_checkInDate := raw_checkInDate c;
     raw_checkOutDate := v;
     raw_contactNumber := raw_contactNumber c; raw_email := raw_email c;
     raw_idProof := raw_idProof c |}.

Definition with_contactNumber (v : JsValue) (c : RawBooking) : RawBooking :=
  {| raw_guestName := raw_guestName c; raw_roomType := raw_roomType c;
     raw_checkInDate := raw_checkInDate c;
     raw_checkOutDate := raw_checkOutDate c;
     raw_contactNumber := v; raw_email := raw_email c;
     raw_idProof := raw_idProof c |}.

(** Same-day stay, no room type chosen. *)
Definition sameDayNoRoom : RawBooking :=
  with_roomType JUndefined (with_checkOutDate (JString "2025-06-01") janeDoe).

(** Departure before arrival, room type outside the enumeration. *)
Definition backwardsPenthouse : RawBooking :=
  with_roomType (JString "Penthouse")
    (with_checkOutDate (JString "2025-05-30") janeDoe).

(** Departure before arrival, one-letter guest name. *)
Definition backwardsShortName : RawBooking :=
  with_guestName (JString "J")
    (with_checkOutDate (JString "2025-05-30") janeDoe).

(** Arrival date that is not a date. *)
Definition garbledCheckIn : RawBooking :=
  with_checkInDate (JString "not-a-date") janeDoe.

(** Arrival date that is not a date, guest name held as a number. *)
Definition garbledCheckInNumericName : RawBooking :=
  with_guestName (JNumber 7) (with_checkInDate (JString "not-a-date") janeDoe).

(** Arrival given to the month only. *)
Definition monthOnlyCheckIn : RawBooking :=
  with_checkInDate (JString "2025-06") janeDoe.

(** Arrival and departure both missing their day and month. *)
Definition emptyDates : RawBooking :=
  with_checkInDate (JString "") (with_checkOutDate (JString "") janeDoe).

(** A five-digit contact number. *)
Definition shortContact : RawBooking :=
  with_contactNumber (JString "12345") janeDoe.

(** Arrival date that is not a date, five-digit contact number. *)
Definition garbledCheckInShortContact : RawBooking :=
  with_contactNumber (JString "12345") garbledCheckIn.

(** A context for trying the handler: the bookings added so far, and an
    [addBooking] that throws on a blank guest name. *)
Definition sampleAddBooking (b : BookingFormData) (added : list BookingFormData)
  : list BookingFormData * Completion unit :=
  match guestName b with
  | EmptyString => (added, Throw (JString "blank guest name"))
  | String _ _ => (added ++ [b], Normal tt)
  end.

Definition janeData : BookingFormData :=
  {| guestName := "Jane Doe"; roomType := "Suite";
     checkInDate := "2025-06-01"; checkOutDate := "2025-06-05";
     contactNumber := "9876543210"; email := "jane@example.com";
     idProof := None |}.

Definition blankData : BookingFormData :=
  {| guestName := ""; roomType := "Suite";
     checkInDate := "2025-06-01"; checkOutDate := "2025-06-05";
     contactNumber := "9876543210"; email := "jane@example.com";
     idProof := None |}.

(** A booking whose stay is over, and a store holding just that one. *)
Definition janeCheckedOut : Booking :=
  {| booking_id := 1%N; details := janeData; status := CheckedOut;
     createdAt := 1748736000000; updatedAt := Some 1749081600000 |}.

Definition archiveStore : BookingStore :=
  {| bookings := {[ 1%N := janeCheckedOut ]};
     persisted := {[ 1%N := janeCheckedOut ]} |}.

(** A world for trying the handler: nothing added yet, the form filled in
    with Jane Doe's submission, "Suite" selected. *)
Definition sampleWorld : World (list BookingFormData) :=
  {| ctx := []; formValues := janeDoe; roomTypeState := "Suite";
     effects := [] |}.

(** A store with nothing in it. *)
Definition emptyStore : BookingStore := {| bookings := ∅; persisted := ∅ |}.

(* ===================================================================== *)
(** * Further views of the form's data *)
(* ===================================================================== *)

(** The validated data seen again as a submitted object. *)
Definition toRaw (d : BookingFormData) : RawBooking :=
  {| raw_guestName := JString (guestName d);
     raw_roomType := JString (roomType d);
     raw_checkInDate := JString (checkInDate d);
     raw_checkOutDate := JString (checkOutDate d);
     raw_contactNumber := JString (contactNumber d);
     raw_email := JString (email d);
     raw_idProof := match idProof d with
                    | Some s => JString s
                    | None => JUndefined
                    end |}.

Definition with_idProof (v : JsValue) (c : RawBooking) : RawBooking :=
  {| raw_guestName := raw_guestName c; raw_roomType := raw_roomType c;
     raw_checkInDate := raw_checkInDate c;
     raw_checkOutDate := raw_checkOutDate c;
     raw_contactNumber := raw_contactNumber c; raw_email := raw_email c;
     raw_idProof := v |}.

(** The keys whose error message the form renders in a paragraph under the
    input (lines 96-98, 121-123, 140-142, 157-159, 175-177, 192-194); the
    [idProof] input has none. *)
Definition renderedErrorKeys : list Key.t :=
  [ Key.guestName; Key.roomType; Key.checkInDate; Key.checkOutDate;
    Key.contactNumber; Key.email ].

(** Jane Doe's submission with a passport reference, held as a number. *)
Definition numericIdProof : RawBooking := with_idProof (JNumber 42) janeDoe.

(* ===================================================================== *)
(** * The room-type dropdown and the events of the form *)
(* ===================================================================== *)

(** The items of the dropdown, value and label (lines 115-118). *)
Definition selectItems : list (string * string) :=
  [ ("Single", "Single Room"); ("Double", "Double Room");
    ("Deluxe", "Deluxe Room"); ("Suite", "Suite") ].

(** What the user can do with the dropdown and the submit button. *)
Inductive FormEvent : Type :=
| ev_select (value : string)
| ev_submit.

(** The dropdown only emits the values of its items. *)
Definition offered (e : FormEvent) : Prop :=
  match e with
  | ev_select v => In v (map fst selectItems)
  | ev_submit => True
  end.

(** The component's [roomType] state (line 39) and the form's value under
    [roomType] agree: either nothing is selected and the form has no value,
    or both hold the same item. *)
Definition roomTypeInSync {Ctx} (w : World Ctx) : Prop :=
  (roomTypeState w = EmptyString
   /\ raw_roomType (formValues w) = JUndefined)
  \/ (raw_roomType (formValues w) = JString (roomTypeState w)
      /\ In (roomTypeState w) (map fst selectItems)).

(** The component when it mounts: [useState('')], no form values yet. *)
Definition initialWorld {Ctx} (c : Ctx) : World Ctx :=
  {| ctx := c; formValues := defaultValues; roomTypeState := EmptyString;
     effects := [] |}.

Definition isToast (e : Effect) : bool :=
  match e with
  | toast_success _ _ | toast_error _ _ => true
  | _ => false
  end.

(* ===================================================================== *)
(** * [App]: the route table and the router's matching *)
(* ===================================================================== *)

(** The page components of [src/App.tsx]. *)
Module Page.
Inductive t : Type :=
| Home | BookingForm | GuestsList | CheckStatus | Login | NotFound.
End Page.

(** The declared routes other than the catch-all (lines 29-33). *)
Definition declaredRoutes : list (string * Page.t) :=
  [ ("/", Page.Home);
    ("/booking", Page.BookingForm);
    ("/guests", Page.GuestsList);
    ("/check-status", Page.CheckStatus);
    ("/login", Page.Login) ].

(** The [<Route>] elements of [App] in the order written (lines 29-35). *)
Definition appRoutes : list (string * Page.t) :=
  declaredRoutes ++ [ ("*", Page.NotFound) ].

Definition isSlash (a : ascii) : bool := Ascii.eqb a "/".

Fixpoint allSlashes (s : string) : bool :=
  match s with
  | EmptyString => true
  | String a rest => isSlash a && allSlashes rest
  end.

Fixpoint stripLeadingSlashes (s : string) : string :=
  match s with
  | EmptyString => EmptyString
  | String a rest => if isSlash a then stripLeadingSlashes rest else s
  end.

Fixpoint stripTrailingSlashes (s : string) : string :=
  match s with
  | EmptyString => EmptyString
  | String a rest =>
      if allSlashes s then EmptyString else String a (stripTrailingSlashes rest)
  end.

Fixpoint endsWithStar (s : string) : bool :=
  match s with
  | EmptyString => false
  | String a EmptyString => Ascii.eqb a "*"
  | String _ rest => endsWithStar rest
  end.

Fixpoint dropFinalStar (s : string) : string :=
  match s with
  | EmptyString => EmptyString
  | String a EmptyString => if Ascii.eqb a "*" then EmptyString else s
  | String a rest => String a (dropFinalStar rest)
  end.

(** What follows the literal stem in a compiled path pattern: slashes up
    to the end (a pattern without a star); anything a dot matches up to the
    end (the patterns "*" and "/*"); or, for other patterns ending in a
    star, either slashes up to the end or a slash followed by at least one
    character a dot matches. *)
Inductive Tail : Type :=
| tail_slashes
| tail_rest
| tail_splat.

(** [compilePath] for a pattern without [:param] segments, matched to the
    end: a trailing [*] and trailing slashes are dropped, one leading slash
    is ensured, and the rest is taken literally. *)
Definition compilePath (pattern : string) : string * Tail :=
  (String "/" (stripLeadingSlashes
                 (stripTrailingSlashes (dropFinalStar pattern))),
   if endsWithStar pattern
   then if String.eqb pattern "*" || String.eqb pattern "/*"
        then tail_rest else tail_splat
   else tail_slashes).

(** The characters a dot does not match. *)
Definition isLineTerminator (a : ascii) : bool :=
  Ascii.eqb a "010" || Ascii.eqb a "013".

Fixpoint noLineTerminator (s : string) : bool :=
  match s with
  | EmptyString => true
  | String a rest => negb (isLineTerminator a) && noLineTerminator rest
  end.

(** Case folding of the [i] flag.  The stems of the routes in use are
    ASCII, and against an ASCII character only the ASCII letters fold. *)
Definition canonicalize (a : ascii) : ascii :=
  let n := N_of_ascii a in
  if (97 <=? n)%N && (n <=? 122)%N then ascii_of_N (n - 32) else a.

(** Match the literal stem at the front of the input, ignoring case. *)
Fixpoint matchStem (stem s : string) : option string :=
  match stem with
  | EmptyString => Some s
  | String c stem' =>
      match s with
      | EmptyString => None
      | String a rest =>
          if Ascii.eqb (canonicalize c) (canonicalize a)
          then matchStem stem' rest else None
      end
  end.

Definition tailMatches (t : Tail) (rest : string) : bool :=
  match t with
  | tail_slashes => allSlashes rest
  | tail_rest => noLineTerminator rest
  | tail_splat =>
      allSlashes rest
      || match rest with
         | String a r => isSlash a && nonEmpty r && noLineTerminator r
         | EmptyString => false
         end
  end.

(** [matchPath({ path: pattern, caseSensitive: false, end: true }, pathname)] *)
Definition matchPath (pattern pathname : string) : bool :=
  let '(stem, t) := compilePath pattern in
  match matchStem stem pathname with
  | Some rest => tailMatches t rest
  | None => false
  end.

(** [paths.join("/").replace(/\/\/+/g, "/")] for a top-level route. *)
Fixpoint collapseSlashes (s : string) : string :=
  match s with
  | EmptyString => EmptyString
  | String a rest =>
      match rest with
      | String b _ =>
          if isSlash a && isSlash b then collapseSlashes rest
          else String a (collapseSlashes rest)
      | EmptyString => s
      end
  end.

Definition joinPaths (relativePath : string) : string :=
  collapseSlashes (String "/" relativePath).

(** [path.split("/")] *)
Fixpoint splitSlash (s : string) : list string :=
  match s with
  | EmptyString => [EmptyString]
  | String a rest =>
      if isSlash a then EmptyString :: splitSlash rest
      else match splitSlash rest with
           | h :: t => String a h :: t
           | [] => [String a EmptyString]
           end
  end.

Definition isSplat (segment : string) : bool := String.eqb segment "*".

Definition isWordOrDash (a : ascii) : bool :=
  let n := N_of_ascii a in
  ((48 <=? n) && (n <=? 57) || (65 <=? n) && (n <=? 90)
   || (97 <=? n) && (n <=? 122) || (n =? 95) || (n =? 45))%N.

Fixpoint allWordOrDash (s : string) : bool :=
  match s with
  | EmptyString => true
  | String a rest => isWordOrDash a && allWordOrDash rest
  end.

(** [/^:[\w-]+$/] *)
Definition isDynamicSegment (segment : string) : bool :=
  match segment with
  | String a rest => Ascii.eqb a ":" && nonEmpty rest && allWordOrDash rest
  | EmptyString => false
  end.

(** [computeScore(path, index)] for a route that is not an index route. *)
Definition computeScore (path : string) : Z :=
  let segments := splitSlash path in
  let initialScore :=
    Z.of_nat (List.length segments)
    + (if existsb isSplat segments then -2 else 0) in
  fold_left
    (fun score segment =>
       score + (if isDynamicSegment segment then 3
                else if String.eqb segment EmptyString then 1 else 10))
    (List.filter (fun s => negb (isSplat s)) segments)
    initialScore.

Record RouteBranch : Type := {
  br_score : Z;
  br_index : nat;
  br_pattern : string;
  br_page : Page.t
}.

Fixpoint flattenFrom (i : nat) (routes : list (string * Page.t))
  : list RouteBranch :=
  match routes with
  | [] => []
  | (pattern, page) :: rest =>
      {| br_score := computeScore (joinPaths pattern); br_index := i;
         br_pattern := pattern; br_page := page |}
      :: flattenFrom (S i) rest
  end.

Definition flattenRoutes (routes : list (string * Page.t)) : list RouteBranch :=
  flattenFrom 0 routes.

(** The order [rankRouteBranches] sorts into: higher score first, siblings
    of equal score in the order written. *)
Definition ranksBefore (a b : RouteBranch) : bool :=
  (br_score b <? br_score a)
  || ((br_score a =? br_score b) && (br_index a <? br_index b)%nat).

Fixpoint insertRanked (a : RouteBranch) (l : list RouteBranch)
  : list RouteBranch :=
  match l with
  | [] => [a]
  | b :: rest => if ranksBefore a b then a :: l else b :: insertRanked a rest
  end.

Definition rankRouteBranches (l : list RouteBranch) : list RouteBranch :=
  fold_right insertRanked [] l.

Fixpoint firstMatch (l : list RouteBranch) (pathname : string)
  : option Page.t :=
  match l with
  | [] => None
  | b :: rest =>
      if matchPath (br_pattern b) pathname then Some (br_page b)
      else firstMatch rest pathname
  end.

(** [matchRoutes(routes, { pathname })] for a flat route table: the page of
    the best-ranked route that matches, if any does. *)
Definition matchRoutes (routes : list (string * Page.t)) (pathname : string)
  : option Page.t :=
  firstMatch (rankRouteBranches (flattenRoutes routes)) pathname.

(** The same search over bare pattern and page pairs. *)
Fixpoint firstOf (l : list (string * Page.t)) (pathname : string)
  : option Page.t :=
  match l with
  | [] => None
  | (pat, page) :: rest =>
      if matchPath pat pathname then Some page else firstOf rest pathname
  end.

(** Helpers for stating what a path looks like. *)
Definition asciiLowerChar (a : ascii) : ascii :=
  let n := N_of_ascii a in
  if (65 <=? n)%N && (n <=? 90)%N then ascii_of_N (n + 32) else a.

Fixpoint asciiLower (s : string) : string :=
  match s with
  | EmptyString => EmptyString
  | String a rest => String (asciiLowerChar a) (asciiLower rest)
  end.

Fixpoint slashes (k : nat) : string :=
  match k with
  | O => EmptyString
  | S k' => String "/" (slashes k')
  end.

(** The route table with the catch-all written at position [n] instead of
    at the end. *)
Definition routesWithCatchAllAt (n : nat) : list (string * Page.t) :=
  firstn n declaredRoutes ++ ("*", Page.NotFound) :: skipn n declaredRoutes.

(* ===================================================================== *)
(** * The [min] attribute of the two date inputs *)
(* ===================================================================== *)

(** The civil date of a day number counted from 1970-01-01. *)
Definition civilFromDays (day : Z) : Z * Z * Z :=
  let z := day + 719468 in
  let era := z / 146097 in
  let doe := z - era * 146097 in
  let yoe := (doe - doe / 1460 + doe / 36524 - doe / 146096) / 365 in
  let doy := doe - (365 * yoe + yoe / 4 - yoe / 100) in
  let mp := (5 * doy + 2) / 153 in
  let d := doy - (153 * mp + 2) / 5 + 1 in
  let m := if mp <? 10 then mp + 3 else mp - 9 in
  let y := yoe + era * 400 in
  (if m <=? 2 then y + 1 else y, m, d).

Definition digitChar (n : Z) : ascii := ascii_of_N (Z.to_N (48 + n)).

Definition pad2 (n : Z) : string :=
  String (digitChar (n / 10 mod 10)) (String (digitChar (n mod 10)) EmptyString).

Definition pad3 (n : Z) : string :=
  String (digitChar (n / 100 mod 10)) (pad2 n).

Definition pad4 (n : Z) : string :=
  String (digitChar (n / 1000 mod 10)) (pad3 n).

(** The date part, [YYYY-MM-DD], of the ISO form of a day. *)
Definition isoDatePart (day : Z) : string :=
  let '(y, m, d) := civilFromDays day in
  String.append (pad4 y)
    (String "-" (String.append (pad2 m) (String "-" (pad2 d)))).

(** The time part, [HH:mm:ss.sssZ], of the ISO form of a time within a day. *)
Definition isoTimePart (ms : Z) : string :=
  String.append (pad2 (ms / 3600000))
    (String ":" (String.append (pad2 (ms / 60000 mod 60))
       (String ":" (String.append (pad2 (ms / 1000 mod 60))
          (String "." (String.append (pad3 (ms mod 1000))
             (String "Z" EmptyString))))))).

(** [toISOString()] of a [Date] with time value [t], for the years
    0 to 9999, where the year is written with four digits. *)
Definition Date_toISOString (t : Z) : string :=
  String.append (isoDatePart (t / msPerDay))
    (String "T" (isoTimePart (t mod msPerDay))).

(** [s.split(sep)[0]]: the part of [s] before the first [sep]. *)
Fixpoint beforeFirst (sep : ascii) (s : string) : string :=
  match s with
  | EmptyString => EmptyString
  | String a rest =>
      if Ascii.eqb a sep then EmptyString else String a (beforeFirst sep rest)
  end.

(** [new Date().toISOString().split('T')[0]] (lines 136 and 153), with the
    clock reading [now]. *)
Definition minDate (now : Z) : string :=
  beforeFirst "T" (Date_toISOString now).

(** The check made for one day: its date part has ten characters, none of
    them a "T", and parses back to the start of the day. *)
Definition dayRoundTrips (day : Z) : bool :=
  let s := isoDatePart day in
  Nat.eqb (String.length s) 10
  && String.eqb (beforeFirst "T" s) s
  && match isoDateParse s with
     | Some t => t =? day * msPerDay
     | None => false
     end.

Fixpoint daysRoundTrip (count : nat) (from : Z) : bool :=
  match count with
  | O => true
  | S n => dayRoundTrips from && daysRoundTrip n (from + 1)
  end.

(** The first instant of the year 2100. *)
Definition year2100 : Z := 4102444800000.

(* ===================================================================== *)
(** * [bookingSchema] and the validation it performs *)
(* ===================================================================== *)

Section Schema.

(** [new Date(s)] for a string [s]: its time value, [None] when the
    string is not recognised. *)
Variable Date_parse : string -> TimeValue.

(** The pattern behind [z.string().email()]. *)
Variable emailRegex : string -> bool.

Definition mkIssue (c : ZodIssueCode) (p : Path) (msg : string) : ZodIssue :=
  {| code := c; path := p; message := Msg msg |}.

(** One check of a [z.string()] on the string [s]: it adds an issue when
    it fails and never stops the remaining checks.  [String.length] stands
    for the [length] property; the two agree on strings of characters
    below U+0100. *)
Definition runCheck (p : Path) (s : string) (c : StringCheck)
  : list ZodIssue :=
  match c with
  | ck_min n msg =>
      if (String.length s <? n)%nat then [mkIssue too_small p msg] else []
  | ck_max n msg =>
      if (n <? String.length s)%nat then [mkIssue too_big p msg] else []
  | ck_regex re msg =>
      if regexTest re s then [] else [mkIssue invalid_string p msg]
  | ck_email msg =>
      if emailRegex s then [] else [mkIssue invalid_string p msg]
  end.

(** [z.string()] with its checks: a non-string input is an [invalid_type]
    issue and [INVALID]; on a string every check runs, and a failed check
    leaves the result [DIRTY]. *)
Definition ZodString_parse (checks : list StringCheck) (p : Path)
    (input : JsValue) : Parsed string :=
  match input with
  | JString s =>
      let iss := flat_map (runCheck p s) checks in
      (match iss with [] => OK s | _ :: _ => DIRTY s end, iss)
  | _ => (INVALID, [ {| code := invalid_type; path := p;
                        message := DefaultMessage |} ])
  end.

(** The seven members of the shape (lines 16-24). *)
Definition guestNameSchema : JsValue -> Parsed string :=
  ZodString_parse [ ck_min 2 "Name must be at least 2 characters";
                    ck_max 50 "Name too long" ] [Key.guestName].

Definition roomTypeSchema : JsValue -> Parsed string :=
  ZodEnum_parse roomTypes (Some "Please select a room type") [Key.roomType].

Definition checkInDateSchema : JsValue -> Parsed string :=
  ZodString_parse [ ck_min 1 "Check-in date is required" ] [Key.checkInDate].

Definition checkOutDateSchema : JsValue -> Parsed string :=
  ZodString_parse [ ck_min 1 "Check-out date is required" ]
                  [Key.checkOutDate].

Definition contactNumberSchema : JsValue -> Parsed string :=
  ZodString_parse
    [ ck_regex contactNumberRegex "Contact number must be 10 digits" ]
    [Key.contactNumber].

Definition emailSchema : JsValue -> Parsed string :=
  ZodString_parse [ ck_email "Invalid email address" ] [Key.email].

Definition idProofSchema : JsValue -> Parsed (option string) :=
  ZodOptional_parse (ZodString_parse [] [Key.idProof]).

(** [z.object({...})] on the submitted object: every member is parsed, in
    shape order, and all their issues are kept; the statuses are merged. *)
Definition bookingObject (input : RawBooking) : Parsed BookingFormData :=
  let r1 := guestNameSchema (raw_guestName input) in
  let r2 := roomTypeSchema (raw_roomType input) in
  let r3 := checkInDateSchema (raw_checkInDate input) in
  let r4 := checkOutDateSchema (raw_checkOutDate input) in
  let r5 := contactNumberSchema (raw_contactNumber input) in
  let r6 := emailSchema (raw_email input) in
  let r7 := idProofSchema (raw_idProof input) in
  (mergePair (mergePair (mergePair (mergePair (mergePair (mergePair
     (mergePair (OK Build_BookingFormData) (fst r1)) (fst r2)) (fst r3))
     (fst r4)) (fst r5)) (fst r6)) (fst r7),
   snd r1 ++ snd r2 ++ snd r3 ++ snd r4 ++ snd r5 ++ snd r6 ++ snd r7).

(** The refinement's callback (lines 25-29). *)
Definition datesInOrder (data : BookingFormData) : bool :=
  let checkIn := Date_parse (checkInDate data) in
  let checkOut := Date_parse (checkOutDate data) in
  Date_gt checkOut checkIn.

(** [bookingSchema] (lines 15-32). *)
Definition bookingSchema (input : RawBooking) : Parsed BookingFormData :=
  ZodEffects_refine datesInOrder
    "Check-out date must be after check-in date" [Key.checkOutDate] []
    (bookingObject input).

Definition safeParse (input : RawBooking) : SafeParseReturn BookingFormData :=
  handleResult (bookingSchema input).

(** The issues validation reports for an input (none on success). *)
Definition issuesOf (input : RawBooking) : list ZodIssue :=
  match safeParse input with
  | Success _ => []
  | Failure iss => iss
  end.

(** [zodResolver(bookingSchema)] (line 47). *)
Definition zodResolver (input : RawBooking) : ResolverResult :=
  match safeParse input with
  | Success data => {| values := Some data; errors := [] |}
  | Failure iss => {| values := None; errors := parseErrorSchema iss [] |}
  end.

(** An issue is reported on key [k]. *)
Definition reportedOn (k : Key.t) (iss : list ZodIssue) : bool :=
  existsb (fun i => pathEqb (path i) [k]) iss.

(** The cross-field issue is among the reported ones. *)
Definition crossFieldReported (iss : list ZodIssue) : bool :=
  existsb (fun i => match code i with
                    | custom => pathEqb (path i) [Key.checkOutDate]
                    | _ => false
                    end) iss.

(** The comparison of the two dates as the refinement would make it on the
    raw strings; [false] when either key holds no string. *)
Definition rawDatesInOrder (input : RawBooking) : bool :=
  match asString (raw_checkInDate input),
        asString (raw_checkOutDate input) with
  | Some ci, Some co => Date_gt (Date_parse co) (Date_parse ci)
  | _, _ => false
  end.

(* ------------------------------------------------------------------- *)
(** ** The submit handler *)
(* ------------------------------------------------------------------- *)

Section Submit.

(** The state behind [useBookings()] and its [addBooking], which may
    return or throw. *)
Variable Ctx : Type.
Variable addBooking : BookingFormData -> Ctx -> Ctx * Completion unit.

(** Computations that change the world and return or throw. *)
Definition M (A : Type) : Type := World Ctx -> World Ctx * Completion A.

Definition ret {A} (a : A) : M A := fun w => (w, Normal a).

Definition bind {A B} (m : M A) (k : A -> M B) : M B :=
  fun w =>
    match m w with
    | (w', Normal a) => k a w'
    | (w', Throw e) => (w', Throw e)
    end.

(** [try { body } catch (error) { handler }] *)
Definition tryCatch {A} (body : M A) (handler : JsValue -> M A) : M A :=
  fun w =>
    match body w with
    | (w', Normal a) => (w', Normal a)
    | (w', Throw e) => handler e w'
    end.

Definition emit (e : Effect) (w : World Ctx) : World Ctx :=
  {| ctx := ctx w; formValues := formValues w;
     roomTypeState := roomTypeState w; effects := effects w ++ [e] |}.

Definition do_addBooking (b : BookingFormData) : M unit :=
  fun w =>
    let '(c', r) := addBooking b (ctx w) in
    ({| ctx := c'; formValues := formValues w;
        roomTypeState := roomTypeState w; effects := effects w |}, r).

(** The calls into the toast library, the form library, React and the
    router are taken to return normally. *)
Definition do_toast_success (title description : string) : M unit :=
  fun w => (emit (toast_success title description) w, Normal tt).

Definition do_toast_error (title description : string) : M unit :=
  fun w => (emit (toast_error title description) w, Normal tt).

Definition do_reset : M unit :=
  fun w =>
    (emit form_reset
       {| ctx := ctx w; formValues := defaultValues;
          roomTypeState := roomTypeState w; effects := effects w |},
     Normal tt).

Definition do_setRoomType (value : string) : M unit :=
  fun w =>
    (emit (call_setRoomType value)
       {| ctx := ctx w; formValues := formValues w;
          roomTypeState := value; effects := effects w |},
     Normal tt).

Definition do_setTimeout (navigateTo : string) (delay : Z) : M unit :=
  fun w => (emit (call_setTimeout navigateTo delay) w, Normal tt).

(** The object literal passed to [addBooking] (lines 52-60). *)
Definition newBooking (data : BookingFormData) : BookingFormData :=
  {| guestName := guestName data;
     roomType := roomType data;
     checkInDate := checkInDate data;
     checkOutDate := checkOutDate data;
     contactNumber := contactNumber data;
     email := email data;
     idProof := idProof data |}.

(** [onSubmit] (lines 50-72). *)
Definition onSubmit (data : BookingFormData) : M unit :=
  tryCatch
    (bind (do_addBooking (newBooking data)) (fun _ =>
     bind (do_toast_success "Booking created successfully!"
             (String.append "Booking confirmed for " (guestName data)))
          (fun _ =>
     bind do_reset (fun _ =>
     bind (do_setRoomType "") (fun _ =>
     do_setTimeout "/guests" 1500)))))
    (fun error =>
       do_toast_error "Failed to create booking" "Please try again").

(** [handleSubmit(onSubmit)]: the resolver runs first, and the handler
    is called with the resolver's values only when there are no
    errors. *)
Definition handleSubmit (w : World Ctx) : World Ctx * Completion unit :=
  match values (zodResolver (formValues w)) with
  | Some data => onSubmit data w
  | None => (w, Normal tt)
  end.

(** [register('roomType').onChange({ target: { value, name: 'roomType' } })]
    (line 108): the form's value under [roomType] becomes [value]. *)
Definition do_roomType_onChange (value : string) : M unit :=
  fun w =>
    ({| ctx := ctx w;
        formValues := with_roomType (JString value) (formValues w);
        roomTypeState := roomTypeState w; effects := effects w |},
     Normal tt).

(** [onValueChange] of the room-type dropdown (lines 106-109). *)
Definition onValueChange (value : string) : M unit :=
  bind (do_setRoomType value) (fun _ => do_roomType_onChange value).

(** One user action, and a sequence of them. *)
Definition step (e : FormEvent) (w : World Ctx) : World Ctx :=
  match e with
  | ev_select v => fst (onValueChange v w)
  | ev_submit => fst (handleSubmit w)
  end.

Definition runEvents (es : list FormEvent) (w : World Ctx) : World Ctx :=
  fold_left (fun w' e => step e w') es w.

End Submit.

Arguments onSubmit {Ctx} addBooking data w.
Arguments handleSubmit {Ctx} addBooking w.
Arguments onValueChange {Ctx} value w.
Arguments step {Ctx} addBooking e w.
Arguments runEvents {Ctx} addBooking es w.

(** The record the handler hands to the store for a submitted object, when
    validation lets the submission through. *)
Definition handedToStore (input : RawBooking) : option BookingFormData :=
  match values (zodResolver input) with
  | Some data => Some (newBooking data)
  | None => None
  end.

(* ------------------------------------------------------------------- *)
(** ** The store's [create] (from the written specification) *)
(* ------------------------------------------------------------------- *)

(** Modelled from the spec: [create(candidate)], "runs section 4.1
    validation; on success, assigns a fresh unique id and createdAt, sets
    status Confirmed, inserts into the map, persists, and returns the
    stored record.  On validation failure, the store is not mutated."
    The store's module is not among the sources; validation is the
    schema's. *)
Definition create (candidate : RawBooking) (now : Z) (s : BookingStore)
  : BookingStore * Result Booking :=
  match safeParse candidate with
  | Failure iss => (s, Err (ValidationError iss))
  | Success data =>
      let id := fresh (dom (bookings s)) in
      let b := {| booking_id := id; details := data; status := Confirmed;
                  createdAt := now; updatedAt := None |} in
      let m := <[id := b]> (bookings s) in
      ({| bookings := m; persisted := m |}, Ok b)
  end.

(** The issues the member schema of key [k] adds for an input. *)
Definition memberIssues (k : Key.t) (input : RawBooking) : list ZodIssue :=
  match k with
  | Key.guestName => snd (guestNameSchema (raw_guestName input))
  | Key.roomType => snd (roomTypeSchema (raw_roomType input))
  | Key.checkInDate => snd (checkInDateSchema (raw_checkInDate input))
  | Key.checkOutDate => snd (checkOutDateSchema (raw_checkOutDate input))
  | Key.contactNumber => snd (contactNumberSchema (raw_contactNumber input))
  | Key.email => snd (emailSchema (raw_email input))
  | Key.idProof => snd (idProofSchema (raw_idProof input))
  end.

(** The issue the refinement contributes for an input: none when the object
    aborted or the callback returned [true]. *)
Definition refinementIssues (input : RawBooking) : list ZodIssue :=
  match typedView input with
  | Some data => if datesInOrder data then [] else [crossFieldIssue]
  | None => []
  end.

(** Every issue of the list sits at path [p] and is not a refinement's. *)
Definition memberShaped (p : Path) (l : list ZodIssue) : Prop :=
  Forall (fun i => path i = p /\ code i <> custom) l.

(** Some issue is in the list. *)
Definition hasIssues (l : list ZodIssue) : bool :=
  match l with [] => false | _ :: _ => true end.

(** The first issue recorded at a path, as the resolver would keep it. *)
Fixpoint firstAt (p : Path) (iss : list ZodIssue) : option FieldError :=
  match iss with
  | [] => None
  | i :: rest =>
      if pathEqb (path i) p
      then Some {| fe_type := code i; fe_message := message i |}
      else firstAt p rest
  end.

(** The form shows an error under key [k]. *)
Definition errorShownOn (k : Key.t) (input : RawBooking) : bool :=
  match errorsGet (errors (zodResolver input)) [k] with
  | Some _ => true
  | None => false
  end.

(** The message the form holds for key [k], if any. *)
Definition messageShownOn (k : Key.t) (input : RawBooking) : option Message :=
  match errorsGet (errors (zodResolver input)) [k] with
  | Some e => Some (fe_message e)
  | None => None
  end.

(* ===================================================================== *)
(** * Properties of the pattern matcher *)
(* ===================================================================== *)

Lemma consume_digits (n : nat) (s : string) :
  consume (Range "0" "9") n s = Some EmptyString
  <-> String.length s = n /\ allDigits s = true.
Proof.
  revert s; induction n as [|n IH]; intros s.
  - destruct s as [|a s]; cbn [consume String.length allDigits]; split.
    + intros _; split; reflexivity.
    + reflexivity.
    + intros H; discriminate H.
    + intros [H _]; discriminate H.
  - destruct s as [|a s]; cbn [consume String.length allDigits].
    + split; [intros H; discriminate H | intros [H _]; discriminate H].
    + unfold isAsciiDigit.
      destruct (classMatches (Range "0" "9") a); cbn [andb].
      * rewrite IH. split; intros [H1 H2]; split; auto.
      * split; [intros H; discriminate H | intros [_ H]; discriminate H].
Qed.

Lemma consume_rest_length (c : CharClass) (n : nat) (s rest : string) :
  consume c n s = Some rest ->
  String.length s = (n + String.length rest)%nat.
Proof.
  revert s; induction n as [|n IH]; intros s; simpl.
  - intros H; injection H as ->; reflexivity.
  - destruct s as [|a s]; [discriminate|].
    destruct (classMatches c a); [|discriminate].
    intros H; simpl; rewrite (IH _ H); reflexivity.
Qed.

Lemma contactNumberRegex_spec (s : string) :
  regexTest contactNumberRegex s = true
  <-> String.length s = 10%nat /\ allDigits s = true.
Proof.
  unfold contactNumberRegex, regexTest; cbn [cls times].
  rewrite <- consume_digits.
  destruct (consume (Range "0" "9") 10 s) as [[|a rest]|]; split;
    intros H; try reflexivity; try discriminate H; congruence.
Qed.

(* ===================================================================== *)
(** * Properties of the zod combinators *)
(* ===================================================================== *)

Lemma mergePair_value {A B} (f : ParseReturn (A -> B)) (x : ParseReturn A) :
  valueOf (mergePair f x)
  = match valueOf f, valueOf x with
    | Some g, Some a => Some (g a)
    | _, _ => None
    end.
Proof. destruct f, x; reflexivity. Qed.

Lemma mergePair_consistent {A B} (f : ParseReturn (A -> B))
    (x : ParseReturn A) (i1 i2 : list ZodIssue) :
  consistent (f, i1) -> consistent (x, i2) ->
  consistent (mergePair f x, i1 ++ i2).
Proof.
  unfold consistent; destruct f, x; simpl; intros H1 H2;
    try (subst; reflexivity);
    intros H; apply app_eq_nil in H as [Ha Hb]; auto.
Qed.

Lemma ZodString_value (cks : list StringCheck) (p : Path) (v : JsValue) :
  valueOf (fst (ZodString_parse cks p v)) = asString v.
Proof.
  destruct v; simpl; try reflexivity.
  destruct (flat_map (runCheck p s) cks); reflexivity.
Qed.

Lemma ZodString_consistent (cks : list StringCheck) (p : Path) (v : JsValue) :
  consistent (ZodString_parse cks p v).
Proof.
  unfold consistent; destruct v; simpl; try discriminate.
  destruct (flat_map (runCheck p s) cks); simpl; [reflexivity|discriminate].
Qed.

Lemma ZodEnum_value (vals : list string) (re : option string) (p : Path)
    (v : JsValue) :
  valueOf (fst (ZodEnum_parse vals re p v))
  = match v with
    | JString s => if existsb (String.eqb s) vals then Some s else None
    | _ => None
    end.
Proof.
  destruct v; simpl; try reflexivity.
  destruct (existsb (String.eqb s) vals); reflexivity.
Qed.

Lemma ZodEnum_consistent (vals : list string) (re : option string) (p : Path)
    (v : JsValue) :
  consistent (ZodEnum_parse vals re p v).
Proof.
  unfold consistent; destruct v; simpl; try discriminate.
  destruct (existsb (String.eqb s) vals); simpl; [reflexivity|discriminate].
Qed.

Lemma idProofSchema_value (v : JsValue) :
  valueOf (fst (idProofSchema v))
  = match v with
    | JUndefined => Some None
    | JString s => Some (Some s)
    | _ => None
    end.
Proof. destruct v; reflexivity. Qed.

Lemma idProofSchema_consistent (v : JsValue) : consistent (idProofSchema v).
Proof. unfold consistent; destruct v; simpl; try discriminate; reflexivity. Qed.

Lemma bookingObject_issues (input : RawBooking) :
  snd (bookingObject input)
  = memberIssues Key.guestName input ++ memberIssues Key.roomType input
    ++ memberIssues Key.checkInDate input ++ memberIssues Key.checkOutDate input
    ++ memberIssues Key.contactNumber input ++ memberIssues Key.email input
    ++ memberIssues Key.idProof input.
Proof. reflexivity. Qed.

Lemma bookingObject_consistent (input : RawBooking) :
  consistent (bookingObject input).
Proof.
  unfold bookingObject.
  set (r1 := guestNameSchema _). set (r2 := roomTypeSchema _).
  set (r3 := checkInDateSchema _). set (r4 := checkOutDateSchema _).
  set (r5 := contactNumberSchema _). set (r6 := emailSchema _).
  set (r7 := idProofSchema _).
  cbv zeta.
  replace (snd r1 ++ snd r2 ++ snd r3 ++ snd r4 ++ snd r5 ++ snd r6 ++ snd r7)
    with ((((((([] ++ snd r1) ++ snd r2) ++ snd r3) ++ snd r4) ++ snd r5)
             ++ snd r6) ++ snd r7)
    by (rewrite <- !app_assoc; reflexivity).
  repeat apply mergePair_consistent.
  - unfold consistent; reflexivity.
  - apply (ZodString_consistent _ _ (raw_guestName input)).
  - apply (ZodEnum_consistent _ _ _ (raw_roomType input)).
  - apply (ZodString_consistent _ _ (raw_checkInDate input)).
  - apply (ZodString_consistent _ _ (raw_checkOutDate input)).
  - apply (ZodString_consistent _ _ (raw_contactNumber input)).
  - apply (ZodString_consistent _ _ (raw_email input)).
  - apply (idProofSchema_consistent (raw_idProof input)).
Qed.

Lemma bookingObject_value (input : RawBooking) :
  valueOf (fst (bookingObject input)) = typedView input.
Proof.
  unfold bookingObject, typedView; cbv zeta; cbn [fst].
  rewrite !mergePair_value.
  unfold guestNameSchema, roomTypeSchema, checkInDateSchema,
    checkOutDateSchema, contactNumberSchema, emailSchema.
  rewrite !ZodString_value, ZodEnum_value, idProofSchema_value.
  cbn [valueOf].
  destruct (asString (raw_guestName input)); [|reflexivity].
  destruct (match raw_roomType input with JString s => _ | _ => None end);
    [|reflexivity].
  destruct (asString (raw_checkInDate input)); [|reflexivity].
  destruct (asString (raw_checkOutDate input)); [|reflexivity].
  destruct (asString (raw_contactNumber input)); [|reflexivity].
  destruct (asString (raw_email input)); [|reflexivity].
  destruct (match raw_idProof input with JUndefined => _ | _ => _ end);
    reflexivity.
Qed.

(* ===================================================================== *)
(** * The issues [bookingSchema] reports *)
(* ===================================================================== *)

Lemma wellTyped_typedView (input : RawBooking) :
  wellTyped input = match typedView input with Some _ => true | None => false end.
Proof.
  unfold wellTyped, typedView.
  destruct (raw_guestName input); try reflexivity; cbn [isString asString andb].
  destruct (raw_roomType input); try reflexivity.
  destruct (existsb (String.eqb s0) roomTypes); [|reflexivity]; cbn [andb].
  destruct (raw_checkInDate input); try reflexivity; cbn [isString asString andb].
  destruct (raw_checkOutDate input); try reflexivity; cbn [isString asString andb].
  destruct (raw_contactNumber input); try reflexivity; cbn [isString asString andb].
  destruct (raw_email input); try reflexivity; cbn [isString asString andb].
  destruct (raw_idProof input); reflexivity.
Qed.

Lemma typedView_fields (input : RawBooking) (d : BookingFormData) :
  typedView input = Some d ->
  raw_guestName input = JString (guestName d)
  /\ raw_roomType input = JString (roomType d)
  /\ existsb (String.eqb (roomType d)) roomTypes = true
  /\ raw_checkInDate input = JString (checkInDate d)
  /\ raw_checkOutDate input = JString (checkOutDate d)
  /\ raw_contactNumber input = JString (contactNumber d)
  /\ raw_email input = JString (email d)
  /\ raw_idProof input = match idProof d with
                         | Some s => JString s
                         | None => JUndefined
                         end.
Proof.
  unfold typedView.
  destruct (raw_guestName input); try discriminate; cbn [asString].
  destruct (raw_roomType input); try discriminate.
  destruct (existsb (String.eqb s0) roomTypes) eqn:E; [|discriminate].
  destruct (raw_checkInDate input); try discriminate; cbn [asString].
  destruct (raw_checkOutDate input); try discriminate; cbn [asString].
  destruct (raw_contactNumber input); try discriminate; cbn [asString].
  destruct (raw_email input); try discriminate; cbn [asString].
  destruct (raw_idProof input); try discriminate;
    intros H; injection H as <-;
    cbn [guestName roomType checkInDate checkOutDate contactNumber email
         idProof]; repeat split; try reflexivity; exact E.
Qed.

Lemma typedView_dates (input : RawBooking) (d : BookingFormData) :
  typedView input = Some d -> datesInOrder d = rawDatesInOrder input.
Proof.
  intros H; apply typedView_fields in H as (_ & _ & _ & Hci & Hco & _).
  unfold rawDatesInOrder, datesInOrder; rewrite Hci, Hco; reflexivity.
Qed.

Lemma bookingSchema_issues (input : RawBooking) :
  snd (bookingSchema input) = snd (bookingObject input) ++ refinementIssues input.
Proof.
  unfold bookingSchema, ZodEffects_refine, refinementIssues.
  rewrite <- bookingObject_value.
  destruct (bookingObject input) as [[|v|v] iss]; cbn [fst snd valueOf].
  - rewrite app_nil_r; reflexivity.
  - destruct (datesInOrder v); cbn [snd]; rewrite ?app_nil_r; reflexivity.
  - destruct (datesInOrder v); cbn [snd]; rewrite ?app_nil_r; reflexivity.
Qed.

Lemma safeParse_success (input : RawBooking) (d : BookingFormData) :
  safeParse input = Success d
  <-> typedView input = Some d /\ snd (bookingObject input) = []
      /\ datesInOrder d = true.
Proof.
  unfold safeParse, handleResult, bookingSchema, ZodEffects_refine.
  pose proof (bookingObject_consistent input) as Hc.
  pose proof (bookingObject_value input) as Hv.
  unfold consistent in Hc.
  destruct (bookingObject input) as [[|v|v] iss]; cbn [fst snd valueOf] in *.
  - split; [discriminate|]. intros [H _]; congruence.
  - split.
    + destruct (datesInOrder v); discriminate.
    + intros (_ & H & _); contradiction.
  - split.
    + destruct (datesInOrder v) eqn:E; [|discriminate].
      intros H; injection H as <-. repeat split; auto.
    + intros (H1 & _ & H3).
      assert (v = d) as -> by congruence. rewrite H3; reflexivity.
Qed.

Lemma safeParse_cases (input : RawBooking) :
  (exists d, safeParse input = Success d /\ issuesOf input = [])
  \/ (safeParse input = Failure (issuesOf input) /\ issuesOf input <> []).
Proof.
  unfold issuesOf, safeParse, handleResult, bookingSchema, ZodEffects_refine.
  pose proof (bookingObject_consistent input) as Hc.
  unfold consistent in Hc.
  destruct (bookingObject input) as [[|v|v] iss]; cbn [fst snd] in *.
  - right; split; auto.
  - right; destruct (datesInOrder v); split; auto.
    intros H; apply app_eq_nil in H as [H _]; contradiction.
  - destruct (datesInOrder v).
    + left; exists v; split; reflexivity.
    + right; split; auto. intros H; apply app_eq_nil in H as [_ H]; discriminate.
Qed.

Lemma issuesOf_eq (input : RawBooking) :
  issuesOf input = snd (bookingObject input) ++ refinementIssues input.
Proof.
  rewrite <- bookingSchema_issues.
  unfold issuesOf, safeParse, handleResult.
  pose proof (bookingObject_consistent input) as Hc.
  unfold bookingSchema, ZodEffects_refine, consistent in *.
  destruct (bookingObject input) as [[|v|v] iss]; cbn [fst snd] in *;
    try reflexivity.
  - destruct (datesInOrder v); reflexivity.
  - destruct (datesInOrder v); cbn [snd]; [symmetry; exact Hc | reflexivity].
Qed.

(* ===================================================================== *)
(** * Where issues are reported *)
(* ===================================================================== *)

Lemma keyEqb_eq (a b : Key.t) : Key.eqb a b = true <-> a = b.
Proof. destruct a, b; simpl; split; intros H; congruence. Qed.

Lemma pathEqb_eq (p q : Path) : pathEqb p q = true <-> p = q.
Proof.
  revert q; induction p as [|a p IH]; intros [|b q]; simpl;
    try (split; intros H; congruence).
  rewrite andb_true_iff, keyEqb_eq, IH. split.
  - intros [-> ->]; reflexivity.
  - intros H; injection H as -> ->; split; reflexivity.
Qed.

Lemma pathEqb_refl (p : Path) : pathEqb p p = true.
Proof. apply pathEqb_eq; reflexivity. Qed.

Lemma runCheck_shaped (p : Path) (s : string) (c : StringCheck) :
  memberShaped p (runCheck p s c).
Proof.
  unfold memberShaped, runCheck, mkIssue.
  destruct c;
    match goal with |- context [if ?b then _ else _] => destruct b end;
    repeat constructor; simpl; congruence.
Qed.

Lemma ZodString_shaped (cks : list StringCheck) (p : Path) (v : JsValue) :
  memberShaped p (snd (ZodString_parse cks p v)).
Proof.
  unfold memberShaped.
  destruct v; simpl; try (repeat constructor; simpl; congruence).
  induction cks as [|c cks IH]; simpl; [constructor|].
  apply Forall_app; split; [apply runCheck_shaped | exact IH].
Qed.

Lemma ZodEnum_shaped (vals : list string) (re : option string) (p : Path)
    (v : JsValue) :
  memberShaped p (snd (ZodEnum_parse vals re p v)).
Proof.
  unfold memberShaped.
  destruct v; simpl; try (repeat constructor; simpl; congruence).
  destruct (existsb (String.eqb s) vals); simpl;
    repeat constructor; simpl; congruence.
Qed.

Lemma memberIssues_shaped (k : Key.t) (input : RawBooking) :
  memberShaped [k] (memberIssues k input).
Proof.
  destruct k; unfold memberIssues;
    try apply ZodString_shaped; try apply ZodEnum_shaped.
  unfold idProofSchema, ZodOptional_parse.
  pose proof (ZodString_shaped [] [Key.idProof] (raw_idProof input)) as H.
  destruct (raw_idProof input); try exact H; simpl; constructor.
Qed.

Lemma reportedOn_app (k : Key.t) (l1 l2 : list ZodIssue) :
  reportedOn k (l1 ++ l2) = reportedOn k l1 || reportedOn k l2.
Proof. unfold reportedOn; apply existsb_app. Qed.

Lemma crossFieldReported_app (l1 l2 : list ZodIssue) :
  crossFieldReported (l1 ++ l2)
  = crossFieldReported l1 || crossFieldReported l2.
Proof. unfold crossFieldReported; apply existsb_app. Qed.

Lemma reportedOn_shaped (k k' : Key.t) (l : list ZodIssue) :
  memberShaped [k'] l ->
  reportedOn k l = Key.eqb k' k && hasIssues l.
Proof.
  unfold memberShaped, reportedOn; intros H.
  induction H as [|i l [Hp _] _ IH]; simpl.
  - rewrite andb_false_r; reflexivity.
  - rewrite Hp, IH; simpl. rewrite !andb_true_r.
    destruct (Key.eqb k' k); reflexivity.
Qed.

Lemma crossFieldReported_shaped (p : Path) (l : list ZodIssue) :
  memberShaped p l -> crossFieldReported l = false.
Proof.
  unfold memberShaped, crossFieldReported; intros H.
  induction H as [|i l [_ Hc] _ IH]; simpl; [reflexivity|].
  rewrite IH. destruct (code i); try reflexivity. contradiction.
Qed.

Lemma refinementIssues_cases (input : RawBooking) :
  refinementIssues input
  = if wellTyped input && negb (rawDatesInOrder input)
    then [crossFieldIssue] else [].
Proof.
  unfold refinementIssues. rewrite wellTyped_typedView.
  destruct (typedView input) as [d|] eqn:E; [|reflexivity].
  rewrite (typedView_dates _ _ E).
  destruct (rawDatesInOrder input); reflexivity.
Qed.

(** An issue is reported on key [k] exactly when the member schema of [k]
    raised one, or [k] is [checkOutDate] and the refinement raised its
    issue. *)
Lemma reportedOn_issuesOf (k : Key.t) (input : RawBooking) :
  reportedOn k (issuesOf input)
  = hasIssues (memberIssues k input)
    || (Key.eqb k Key.checkOutDate && hasIssues (refinementIssues input)).
Proof.
  rewrite issuesOf_eq, bookingObject_issues, !reportedOn_app.
  rewrite !(reportedOn_shaped k _ _ (memberIssues_shaped _ input)).
  assert (reportedOn k (refinementIssues input)
          = Key.eqb k Key.checkOutDate && hasIssues (refinementIssues input))
    as ->.
  { rewrite refinementIssues_cases.
    destruct (wellTyped input && negb (rawDatesInOrder input));
      destruct k; reflexivity. }
  destruct k; cbn [Key.eqb andb orb]; rewrite ?orb_false_r; reflexivity.
Qed.

(** The refinement's issue is reported exactly when the object did not
    abort and the comparison of the two dates is [false]. *)
Lemma crossFieldReported_issuesOf (input : RawBooking) :
  crossFieldReported (issuesOf input)
  = wellTyped input && negb (rawDatesInOrder input).
Proof.
  rewrite issuesOf_eq, bookingObject_issues, !crossFieldReported_app.
  rewrite !(crossFieldReported_shaped _ _ (memberIssues_shaped _ input)).
  rewrite refinementIssues_cases.
  destruct (wellTyped input && negb (rawDatesInOrder input)); reflexivity.
Qed.

(* ===================================================================== *)
(** * The resolver keeps the first issue of every path *)
(* ===================================================================== *)

Lemma errorsGet_app (acc : FieldErrors) (q p : Path) (e : FieldError) :
  errorsGet (acc ++ [(q, e)]) p
  = match errorsGet acc p with
    | Some x => Some x
    | None => if pathEqb q p then Some e else None
    end.
Proof.
  induction acc as [|[q' e'] acc IH]; simpl; [reflexivity|].
  destruct (pathEqb q' p); [reflexivity | exact IH].
Qed.

Lemma parseErrorSchema_get (iss : list ZodIssue) (acc : FieldErrors) (p : Path) :
  errorsGet (parseErrorSchema iss acc) p
  = match errorsGet acc p with
    | Some x => Some x
    | None => firstAt p iss
    end.
Proof.
  revert acc; induction iss as [|i iss IH]; intros acc; simpl.
  - destruct (errorsGet acc p); reflexivity.
  - rewrite IH.
    destruct (errorsGet acc (path i)) eqn:E.
    + destruct (errorsGet acc p) eqn:E'; [reflexivity|].
      destruct (pathEqb (path i) p) eqn:Ep; [|reflexivity].
      apply pathEqb_eq in Ep; congruence.
    + rewrite errorsGet_app.
      destruct (errorsGet acc p); [reflexivity|].
      destruct (pathEqb (path i) p); reflexivity.
Qed.

Lemma firstAt_reported (k : Key.t) (iss : list ZodIssue) :
  match firstAt [k] iss with Some _ => true | None => false end
  = reportedOn k iss.
Proof.
  unfold reportedOn; induction iss as [|i iss IH]; simpl; [reflexivity|].
  destruct (pathEqb (path i) [k]); [reflexivity | exact IH].
Qed.

(** The form shows an error under a key exactly when validation reported an
    issue on that key. *)
Lemma errorShownOn_reported (k : Key.t) (input : RawBooking) :
  errorShownOn k input = reportedOn k (issuesOf input).
Proof.
  unfold errorShownOn, zodResolver.
  destruct (safeParse_cases input) as [(d & -> & ->)|[-> _]]; cbn [errors].
  - reflexivity.
  - rewrite parseErrorSchema_get; cbn [errorsGet].
    apply firstAt_reported.
Qed.

Lemma errorsGet_None_notin (acc : FieldErrors) (p : Path) :
  errorsGet acc p = None -> ~ In p (map fst acc).
Proof.
  induction acc as [|[q e] acc IH]; simpl; [tauto|].
  destruct (pathEqb q p) eqn:E; [discriminate|].
  intros H [Hq|Hin]; [|exact (IH H Hin)].
  subst q; rewrite pathEqb_refl in E; discriminate.
Qed.

Lemma parseErrorSchema_NoDup (iss : list ZodIssue) (acc : FieldErrors) :
  NoDup (map fst acc) -> NoDup (map fst (parseErrorSchema iss acc)).
Proof.
  revert acc; induction iss as [|i iss IH]; intros acc Hnd; simpl; [exact Hnd|].
  apply IH. destruct (errorsGet acc (path i)) eqn:E; [exact Hnd|].
  rewrite map_app; simpl.
  apply NoDup_app; split; [exact Hnd|]. split.
  - intros x Hx Hin. apply list_elem_of_In in Hx.
    apply list_elem_of_In in Hin. simpl in Hin. destruct Hin as [<-|[]].
    exact (errorsGet_None_notin _ _ E Hx).
  - apply NoDup_singleton.
Qed.

(* ===================================================================== *)
(** * The cross-field rule and the completeness of the error report *)
(* ===================================================================== *)

Lemma Date_gt_spec (a b : TimeValue) :
  Date_gt a b = true <-> exists x y, a = Some x /\ b = Some y /\ y < x.
Proof.
  unfold Date_gt; destruct a as [x|], b as [y|]; split;
    try discriminate; try (intros (x' & y' & H1 & H2 & _); discriminate).
  - intros H; exists x, y; repeat split; lia.
  - intros (x' & y' & H1 & H2 & H3).
    injection H1 as <-; injection H2 as <-; lia.
Qed.

Lemma Date_gt_irrefl (a : TimeValue) : Date_gt a a = false.
Proof. destruct a as [x|]; simpl; [lia | reflexivity]. Qed.

Lemma rawDatesInOrder_spec (input : RawBooking) :
  rawDatesInOrder input = true
  <-> exists ci co ti tout,
        raw_checkInDate input = JString ci
        /\ raw_checkOutDate input = JString co
        /\ Date_parse ci = Some ti /\ Date_parse co = Some tout
        /\ ti < tout.
Proof.
  unfold rawDatesInOrder. split.
  - destruct (raw_checkInDate input) as [| | | |ci]; try discriminate.
    destruct (raw_checkOutDate input) as [| | | |co]; try discriminate.
    cbn [asString]. intros H.
    apply Date_gt_spec in H as (x & y & Hx & Hy & Hlt).
    exists ci, co, y, x; auto.
  - intros (ci & co & ti & tout & -> & -> & Hi & Ho & Hlt).
    cbn [asString]. apply Date_gt_spec. exists tout, ti; auto.
Qed.

Lemma safeParse_failure_iff (input : RawBooking) :
  issuesOf input <> [] -> safeParse input = Failure (issuesOf input).
Proof.
  destruct (safeParse_cases input) as [(d & _ & H)|[H _]]; congruence.
Qed.

Lemma rawDatesInOrder_false_fails (input : RawBooking) :
  rawDatesInOrder input = false ->
  safeParse input = Failure (issuesOf input) /\ issuesOf input <> [].
Proof.
  intros H.
  destruct (safeParse_cases input) as [(d & Hs & _)|[H1 H2]]; [|auto].
  apply safeParse_success in Hs as (Ht & _ & Hd).
  rewrite (typedView_dates _ _ Ht) in Hd; congruence.
Qed.

(** C1 (amended).  Whenever the check-out date is not strictly later than
    the check-in date (equal dates and unreadable dates included),
    validation fails.  If moreover no key fails its type-level check, the
    refinement's issue is reported with path [checkOutDate] and the form
    shows an error under [checkOutDate].  When the check-out date is
    strictly later, the refinement reports nothing. *)
Theorem checkOut_after_checkIn_rule (input : RawBooking) :
  (rawDatesInOrder input = false ->
     safeParse input = Failure (issuesOf input) /\ issuesOf input <> []
     /\ (wellTyped input = true ->
           crossFieldReported (issuesOf input) = true
           /\ errorShownOn Key.checkOutDate input = true))
  /\ (rawDatesInOrder input = true ->
        crossFieldReported (issuesOf input) = false)
  /\ (forall s, raw_checkInDate input = JString s ->
                raw_checkOutDate input = JString s ->
                rawDatesInOrder input = false)
  /\ (rawDatesInOrder input = true
      <-> exists ci co ti tout,
            raw_checkInDate input = JString ci
            /\ raw_checkOutDate input = JString co
            /\ Date_parse ci = Some ti /\ Date_parse co = Some tout
            /\ ti < tout).
Proof.
  split; [|split; [|split]].
  - intros Hr. destruct (rawDatesInOrder_false_fails _ Hr) as [H1 H2].
    split; [exact H1|]. split; [exact H2|]. intros Hw. split.
    + rewrite crossFieldReported_issuesOf, Hr, Hw; reflexivity.
    + rewrite errorShownOn_reported, reportedOn_issuesOf.
      rewrite refinementIssues_cases, Hr, Hw; cbn.
      apply orb_true_r.
  - intros Hr. rewrite crossFieldReported_issuesOf, Hr.
    apply andb_false_r.
  - intros s Hi Ho. unfold rawDatesInOrder. rewrite Hi, Ho; cbn.
    apply Date_gt_irrefl.
  - apply rawDatesInOrder_spec.
Qed.

(** C2 (amended).  Validation reports, in one result, the issues of all
    seven member schemas followed by the refinement's issue: a key whose own
    schema fails always has its error reported, whatever else failed, and
    the form shows one error per key.  The cross-field error is reported
    together with failures of string-level checks (name length, contact
    pattern, address pattern, empty date); it is not evaluated, and so not
    reported, when some key fails its type-level check (a room type that is
    absent or outside the enumeration, a key not holding a string). *)
Theorem all_member_errors_reported (input : RawBooking) :
  issuesOf input
  = memberIssues Key.guestName input ++ memberIssues Key.roomType input
    ++ memberIssues Key.checkInDate input ++ memberIssues Key.checkOutDate input
    ++ memberIssues Key.contactNumber input ++ memberIssues Key.email input
    ++ memberIssues Key.idProof input ++ refinementIssues input
  /\ (forall k, hasIssues (memberIssues k input) = true ->
                reportedOn k (issuesOf input) = true
                /\ errorShownOn k input = true)
  /\ NoDup (map fst (errors (zodResolver input)))
  /\ (wellTyped input = true -> rawDatesInOrder input = false ->
        crossFieldReported (issuesOf input) = true
        /\ errorShownOn Key.checkOutDate input = true)
  /\ (wellTyped input = false -> crossFieldReported (issuesOf input) = false).
Proof.
  split; [|split; [|split; [|split]]].
  - rewrite issuesOf_eq, bookingObject_issues, <- !app_assoc; reflexivity.
  - intros k Hk. rewrite errorShownOn_reported, reportedOn_issuesOf, Hk.
    split; reflexivity.
  - unfold zodResolver. destruct (safeParse input); cbn [errors].
    + constructor.
    + apply parseErrorSchema_NoDup; constructor.
  - intros Hw Hr. split.
    + rewrite crossFieldReported_issuesOf, Hw, Hr; reflexivity.
    + rewrite errorShownOn_reported, reportedOn_issuesOf.
      rewrite refinementIssues_cases, Hw, Hr; cbn. apply orb_true_r.
  - intros Hw; rewrite crossFieldReported_issuesOf, Hw; reflexivity.
Qed.

(* ===================================================================== *)
(** * The two date fields *)
(* ===================================================================== *)

Lemma min1_issues (p : Path) (msg : string) (v : JsValue) :
  hasIssues (snd (ZodString_parse [ck_min 1 msg] p v)) = negb (present v).
Proof.
  destruct v; try reflexivity.
  destruct s; reflexivity.
Qed.

Lemma checkInDate_reported (input : RawBooking) :
  reportedOn Key.checkInDate (issuesOf input)
  = negb (present (raw_checkInDate input)).
Proof.
  rewrite reportedOn_issuesOf; cbn [Key.eqb andb].
  rewrite orb_false_r. apply min1_issues.
Qed.

(** C3 (amended).  Validation requires both dates to be present, reporting
    an absent or empty one on its own key, and it fails unless both dates
    parse (a successful validation has two readable dates, check-out
    strictly later).  There is no per-key parse check: a date that is
    present but unreadable makes the cross-field comparison false, and the
    resulting error is reported on [checkOutDate] whichever of the two dates
    is unreadable (provided no key fails its type-level check); a check-in
    date that is present never has an error reported on [checkInDate]. *)
Theorem date_fields_presence_and_parsing (input : RawBooking) :
  (present (raw_checkInDate input) = false ->
     reportedOn Key.checkInDate (issuesOf input) = true)
  /\ (present (raw_checkOutDate input) = false ->
        reportedOn Key.checkOutDate (issuesOf input) = true)
  /\ (forall d, safeParse input = Success d ->
        raw_checkInDate input = JString (checkInDate d)
        /\ raw_checkOutDate input = JString (checkOutDate d)
        /\ exists ti tout,
             Date_parse (checkInDate d) = Some ti
             /\ Date_parse (checkOutDate d) = Some tout /\ ti < tout)
  /\ (present (raw_checkInDate input) = true ->
        reportedOn Key.checkInDate (issuesOf input) = false
        /\ errorShownOn Key.checkInDate input = false)
  /\ (forall ci co, wellTyped input = true ->
        raw_checkInDate input = JString ci ->
        raw_checkOutDate input = JString co ->
        Date_parse ci = None \/ Date_parse co = None ->
        crossFieldReported (issuesOf input) = true
        /\ errorShownOn Key.checkOutDate input = true).
Proof.
  split; [|split; [|split; [|split]]].
  - intros H. rewrite checkInDate_reported, H; reflexivity.
  - intros H. rewrite reportedOn_issuesOf.
    unfold memberIssues, checkOutDateSchema. rewrite min1_issues, H.
    reflexivity.
  - intros d Hs. apply safeParse_success in Hs as (Ht & _ & Hd).
    destruct (typedView_fields _ _ Ht) as (_ & _ & _ & Hci & Hco & _).
    repeat split; auto.
    unfold datesInOrder in Hd. apply Date_gt_spec in Hd as (x & y & Hx & Hy & Hlt).
    exists y, x; auto.
  - intros H. rewrite errorShownOn_reported, checkInDate_reported, H.
    split; reflexivity.
  - intros ci co Hw Hci Hco Hnone.
    assert (rawDatesInOrder input = false) as Hr.
    { unfold rawDatesInOrder. rewrite Hci, Hco; cbn.
      destruct Hnone as [-> | ->]; [|reflexivity].
      destruct (Date_parse co); reflexivity. }
    split.
    + rewrite crossFieldReported_issuesOf, Hw, Hr; reflexivity.
    + rewrite errorShownOn_reported, reportedOn_issuesOf.
      rewrite refinementIssues_cases, Hw, Hr; cbn. apply orb_true_r.
Qed.

(** C9 (amended).  When no key fails its type-level check, the check-in
    date is a non-empty string that does not parse and the check-out date
    is a readable date, the cross-field comparison is [false], its error is
    reported on [checkOutDate], and nothing is reported on [checkInDate]. *)
Theorem unreadable_checkIn_reported_on_checkOut
    (input : RawBooking) (ci co : string) (t : Z) :
  wellTyped input = true ->
  raw_checkInDate input = JString ci -> nonEmpty ci = true ->
  Date_parse ci = None ->
  raw_checkOutDate input = JString co -> Date_parse co = Some t ->
  Date_gt (Date_parse co) (Date_parse ci) = false
  /\ crossFieldReported (issuesOf input) = true
  /\ errorShownOn Key.checkOutDate input = true
  /\ reportedOn Key.checkInDate (issuesOf input) = false
  /\ errorShownOn Key.checkInDate input = false.
Proof.
  intros Hw Hci Hne Hnone Hco Ht.
  assert (rawDatesInOrder input = false) as Hr.
  { unfold rawDatesInOrder. rewrite Hci, Hco; cbn [asString].
    rewrite Hnone, Ht; reflexivity. }
  assert (present (raw_checkInDate input) = true) as Hp
    by (rewrite Hci; exact Hne).
  split; [rewrite Hnone, Ht; reflexivity|].
  rewrite !errorShownOn_reported, checkInDate_reported, Hp.
  rewrite crossFieldReported_issuesOf, reportedOn_issuesOf.
  rewrite refinementIssues_cases, Hw, Hr; cbn.
  rewrite orb_true_r. repeat split; reflexivity.
Qed.

(* ===================================================================== *)
(** * What reaches the store *)
(* ===================================================================== *)

Lemma newBooking_id (data : BookingFormData) : newBooking data = data.
Proof. destruct data; reflexivity. Qed.

(** Submitting the form calls [onSubmit], and through it [addBooking], with
    exactly the record [handedToStore] names; a rejected submission never
    reaches the handler. *)
Lemma handleSubmit_handedToStore (Ctx : Type)
    (addBooking : BookingFormData -> Ctx -> Ctx * Completion unit)
    (w : World Ctx) :
  handleSubmit addBooking w
  = match handedToStore (formValues w) with
    | Some record => onSubmit addBooking record w
    | None => (w, Normal tt)
    end.
Proof.
  unfold handleSubmit, handedToStore.
  destruct (values (zodResolver (formValues w))) as [d|]; [|reflexivity].
  rewrite newBooking_id; reflexivity.
Qed.

(** C4 (amended).  For every submission that passes validation, the record
    handed to the store carries every field exactly as submitted; in
    particular [checkInDate] and [checkOutDate] are the raw submitted
    strings, with no canonical form imposed on them. *)
Theorem dates_handed_over_as_submitted
    (input : RawBooking) (record : BookingFormData) :
  handedToStore input = Some record ->
  safeParse input = Success record
  /\ typedView input = Some record
  /\ raw_checkInDate input = JString (checkInDate record)
  /\ raw_checkOutDate input = JString (checkOutDate record).
Proof.
  unfold handedToStore, zodResolver.
  destruct (safeParse input) as [d|iss] eqn:E; cbn [values]; [|discriminate].
  rewrite newBooking_id. intros H; injection H as <-.
  apply safeParse_success in E as (Ht & _ & _).
  destruct (typedView_fields _ _ Ht) as (_ & _ & _ & Hci & Hco & _).
  repeat split; auto.
Qed.

(* ===================================================================== *)
(** * Contact number and room type *)
(* ===================================================================== *)

Lemma isAsciiDigit_spec (a : ascii) :
  isAsciiDigit a = true <-> In a digitChars.
Proof.
  assert (isAsciiDigit a = existsb (Ascii.eqb a) digitChars) as ->
    by (destruct a as [[] [] [] [] [] [] [] []]; reflexivity).
  rewrite existsb_exists. split.
  - intros (x & Hin & Hx). apply Ascii.eqb_eq in Hx; subst; exact Hin.
  - intros Hin. exists a; split; [exact Hin | apply Ascii.eqb_refl].
Qed.

Lemma allDigits_spec (s : string) :
  allDigits s = true
  <-> Forall (fun a => In a digitChars) (list_ascii_of_string s).
Proof.
  induction s as [|a s IH]; cbn [allDigits list_ascii_of_string].
  - split; [constructor | reflexivity].
  - rewrite andb_true_iff, isAsciiDigit_spec, IH, Forall_cons_iff.
    reflexivity.
Qed.

Lemma contactNumber_reported (input : RawBooking) :
  reportedOn Key.contactNumber (issuesOf input)
  = negb match raw_contactNumber input with
         | JString s => regexTest contactNumberRegex s
         | _ => false
         end.
Proof.
  rewrite reportedOn_issuesOf; cbn [Key.eqb andb]. rewrite orb_false_r.
  unfold memberIssues, contactNumberSchema, ZodString_parse.
  destruct (raw_contactNumber input); try reflexivity.
  cbn [flat_map runCheck snd]. rewrite app_nil_r.
  destruct (regexTest contactNumberRegex s); reflexivity.
Qed.

(** C5.  The contact-number check passes exactly when the key holds a
    string of exactly ten ASCII digits; ["12345"] is reported on
    [contactNumber] and ["9876543210"] is not. *)
Theorem contactNumber_exactly_ten_digits (input : RawBooking) :
  (reportedOn Key.contactNumber (issuesOf input) = false
   <-> exists s, raw_contactNumber input = JString s
                 /\ String.length s = 10%nat
                 /\ Forall (fun a => In a digitChars) (list_ascii_of_string s))
  /\ (reportedOn Key.contactNumber (issuesOf input) = true
      -> errorShownOn Key.contactNumber input = true
         /\ safeParse input = Failure (issuesOf input))
  /\ reportedOn Key.contactNumber
       (issuesOf (with_contactNumber (JString "12345") input)) = true
  /\ reportedOn Key.contactNumber
       (issuesOf (with_contactNumber (JString "9876543210") input)) = false.
Proof.
  split; [|split; [|split]].
  - rewrite contactNumber_reported, negb_false_iff.
    destruct (raw_contactNumber input) as [| | | |s]; split;
      try discriminate; try (intros (s' & H & _); discriminate).
    + intros H. apply contactNumberRegex_spec in H as [H1 H2].
      exists s; repeat split; auto. apply allDigits_spec; exact H2.
    + intros (s' & H & H1 & H2). injection H as <-.
      apply contactNumberRegex_spec; split; auto.
      apply allDigits_spec; exact H2.
  - intros H. rewrite errorShownOn_reported. split; [exact H|].
    apply safeParse_failure_iff. intros Hnil; rewrite Hnil in H; discriminate.
  - rewrite contactNumber_reported; reflexivity.
  - rewrite contactNumber_reported; reflexivity.
Qed.

Lemma roomType_reported (input : RawBooking) :
  reportedOn Key.roomType (issuesOf input)
  = negb match raw_roomType input with
         | JString s => existsb (String.eqb s) roomTypes
         | _ => false
         end.
Proof.
  rewrite reportedOn_issuesOf; cbn [Key.eqb andb]. rewrite orb_false_r.
  unfold memberIssues, roomTypeSchema, ZodEnum_parse.
  destruct (raw_roomType input); try reflexivity.
  destruct (existsb (String.eqb s) roomTypes); reflexivity.
Qed.

Lemma roomTypes_In (s : string) :
  existsb (String.eqb s) roomTypes = true
  <-> In s ["Single"; "Double"; "Deluxe"; "Suite"].
Proof.
  unfold roomTypes. rewrite existsb_exists. split.
  - intros (x & Hin & Hx). apply String.eqb_eq in Hx; subst; exact Hin.
  - intros Hin. exists s; split; [exact Hin | apply String.eqb_refl].
Qed.

(** C6.  The room-type check passes exactly when the key holds one of
    Single, Double, Deluxe, Suite.  Any other value, and an absent one, is
    reported on [roomType] and makes validation fail; a successful
    validation returns the submitted room type itself, never a default. *)
Theorem roomType_must_be_enumerated (input : RawBooking) :
  (reportedOn Key.roomType (issuesOf input) = false
   <-> exists s, raw_roomType input = JString s
                 /\ In s ["Single"; "Double"; "Deluxe"; "Suite"])
  /\ (reportedOn Key.roomType (issuesOf input) = true ->
        errorShownOn Key.roomType input = true
        /\ safeParse input = Failure (issuesOf input))
  /\ (forall d, safeParse input = Success d ->
        raw_roomType input = JString (roomType d)
        /\ In (roomType d) ["Single"; "Double"; "Deluxe"; "Suite"]).
Proof.
  split; [|split].
  - rewrite roomType_reported, negb_false_iff.
    destruct (raw_roomType input) as [| | | |s]; split;
      try discriminate; try (intros (s' & H & _); discriminate).
    + intros H. exists s; split; [reflexivity | apply roomTypes_In; exact H].
    + intros (s' & H & Hin). injection H as <-. apply roomTypes_In; exact Hin.
  - intros H. rewrite errorShownOn_reported. split; [exact H|].
    apply safeParse_failure_iff. intros Hnil; rewrite Hnil in H; discriminate.
  - intros d Hs. apply safeParse_success in Hs as (Ht & _ & _).
    destruct (typedView_fields _ _ Ht) as (_ & Hr & He & _).
    split; [exact Hr | apply roomTypes_In; exact He].
Qed.

(* ===================================================================== *)
(** * The store: lifecycle and identity *)
(* ===================================================================== *)

Lemma canTransition_edges (from to : Status) :
  canTransition from to = true
  <-> (from = Confirmed /\ to = CheckedIn)
      \/ (from = CheckedIn /\ to = CheckedOut)
      \/ (from = Confirmed /\ to = Cancelled)
      \/ (from = Pending /\ to = Confirmed)
      \/ (from = Pending /\ to = Cancelled).
Proof.
  destruct from, to; cbn; split; intros H; try discriminate; try reflexivity;
    try tauto;
    repeat (destruct H as [[H1 H2]|H]; try discriminate);
    destruct H as [H1 H2]; discriminate.
Qed.

Lemma terminal_no_edge (from to : Status) :
  isTerminal from = true -> canTransition from to = false.
Proof. destruct from, to; cbn; intros H; try discriminate; reflexivity. Qed.

(** C7.  For a stored booking, [transition] succeeds exactly along the five
    lifecycle edges, and a success sets the requested status on that
    booking alone.  Every other request returns [InvalidTransition] and
    leaves the whole store as it was; in particular this is so for every
    request made from CheckedOut or Cancelled. *)
Theorem transition_follows_lifecycle
    (s : BookingStore) (id : N) (b : Booking) (target : Status) (now : Z) :
  bookings s !! id = Some b ->
  ((exists b', snd (transition id target now s) = Ok b')
   <-> (status b = Confirmed /\ target = CheckedIn)
       \/ (status b = CheckedIn /\ target = CheckedOut)
       \/ (status b = Confirmed /\ target = Cancelled)
       \/ (status b = Pending /\ target = Confirmed)
       \/ (status b = Pending /\ target = Cancelled))
  /\ (forall b', snd (transition id target now s) = Ok b' ->
        status b' = target
        /\ details b' = details b /\ booking_id b' = booking_id b
        /\ findById id (fst (transition id target now s)) = Ok b'
        /\ forall id', id' <> id ->
             bookings (fst (transition id target now s)) !! id'
             = bookings s !! id')
  /\ ((forall b', snd (transition id target now s) <> Ok b') ->
        transition id target now s = (s, Err InvalidTransition))
  /\ (status b = CheckedOut \/ status b = Cancelled ->
        transition id target now s = (s, Err InvalidTransition)).
Proof.
  intros Hb. unfold transition. rewrite Hb.
  split; [|split; [|split]].
  - rewrite <- canTransition_edges.
    destruct (canTransition (status b) target); cbn [snd]; split.
    + reflexivity.
    + intros _; eexists; reflexivity.
    + intros [b' H]; discriminate.
    + discriminate.
  - intros b'. destruct (canTransition (status b) target); cbn [fst snd];
      [|discriminate].
    intros H; injection H as <-. cbn [status details booking_id].
    repeat split.
    + unfold findById; cbn [bookings]. rewrite lookup_insert_eq; reflexivity.
    + intros id' Hne; cbn [bookings]. apply lookup_insert_ne; congruence.
  - destruct (canTransition (status b) target); cbn [snd]; [|reflexivity].
    intros H; exfalso; eapply H; reflexivity.
  - intros H.
    rewrite terminal_no_edge; [reflexivity|].
    destruct H as [-> | ->]; reflexivity.
Qed.

Lemma fresh_id_unused (m : gmap N Booking) : m !! fresh (dom m) = None.
Proof. apply not_elem_of_dom, is_fresh. Qed.

(** C8.  For a candidate that validation accepts, [create] returns a record
    whose id is not the id of any booking already in the store, whose status
    is Confirmed, and which [findById] returns for that id in the new store;
    a second [create] with the same candidate gets yet another id.  For a
    candidate that validation rejects, [create] returns the validation
    errors and the store it was given. *)
Theorem create_assigns_fresh_identity
    (candidate : RawBooking) (now : Z) (s : BookingStore) :
  (forall data, safeParse candidate = Success data ->
     exists b s',
       create candidate now s = (s', Ok b)
       /\ bookings s !! booking_id b = None
       /\ (forall id' b', bookings s !! id' = Some b' -> booking_id b <> id')
       /\ status b = Confirmed /\ details b = data /\ createdAt b = now
       /\ findById (booking_id b) s' = Ok b
       /\ (forall id', id' <> booking_id b ->
             bookings s' !! id' = bookings s !! id')
       /\ persisted s' = bookings s'
       /\ forall now', exists b2 s2,
            create candidate now' s' = (s2, Ok b2)
            /\ booking_id b2 <> booking_id b
            /\ findById (booking_id b) s2 = Ok b)
  /\ (forall iss, safeParse candidate = Failure iss ->
        create candidate now s = (s, Err (ValidationError iss))).
Proof.
  split.
  - intros data Hs. unfold create. rewrite Hs.
    set (id := fresh (dom (bookings s))).
    set (b := {| booking_id := id; details := data; status := Confirmed;
                 createdAt := now; updatedAt := None |}).
    exists b. eexists. split; [reflexivity|].
    cbn [booking_id status details createdAt bookings persisted].
    assert (bookings s !! id = None) as Hfresh by apply fresh_id_unused.
    repeat split; auto.
    + intros id' b' H Heq. change (id = id') in Heq.
      rewrite <- Heq, Hfresh in H. discriminate.
    + unfold findById; cbn [bookings]. rewrite lookup_insert_eq; reflexivity.
    + intros id' Hne. apply lookup_insert_ne.
      intros Heq; apply Hne; symmetry; exact Heq.
    + intros now'.
      set (id2 := fresh (dom (<[id:=b]> (bookings s)))).
      assert (<[id:=b]> (bookings s) !! id2 = None) as Hfresh2
        by apply fresh_id_unused.
      assert (id2 <> id) as Hne.
      { intros Heq. rewrite Heq, lookup_insert_eq in Hfresh2. discriminate. }
      eexists; eexists. split; [reflexivity|].
      cbn [booking_id]. split; [exact Hne|].
      unfold findById; cbn [bookings].
      rewrite lookup_insert_ne by exact Hne.
      rewrite lookup_insert_eq; reflexivity.
  - intros iss Hs. unfold create. rewrite Hs. reflexivity.
Qed.

(* ===================================================================== *)
(** * The submit handler *)
(* ===================================================================== *)

(** C10.  If [addBooking] throws, [onSubmit] catches the exception: it
    shows the failure toast and does nothing else, so the form values and
    the selected room type stay as they were and no navigation is
    scheduled.  If [addBooking] returns, the handler shows the success
    toast, resets the form, clears the room-type selection and schedules
    the navigation to the guest list, in that order. *)
Theorem onSubmit_resets_only_after_addBooking_returns
    (Ctx : Type)
    (addBooking : BookingFormData -> Ctx -> Ctx * Completion unit)
    (data : BookingFormData) (w : World Ctx) :
  (forall c' e, addBooking (newBooking data) (ctx w) = (c', Throw e) ->
     onSubmit addBooking data w
     = ({| ctx := c'; formValues := formValues w;
           roomTypeState := roomTypeState w;
           effects := effects w
                      ++ [ toast_error "Failed to create booking"
                                       "Please try again" ] |},
        Normal tt))
  /\ (forall c' u, addBooking (newBooking data) (ctx w) = (c', Normal u) ->
        onSubmit addBooking data w
        = ({| ctx := c'; formValues := defaultValues;
              roomTypeState := "";
              effects := effects w
                         ++ [ toast_success "Booking created successfully!"
                                (String.append "Booking confirmed for "
                                               (guestName data));
                              form_reset;
                              call_setRoomType "";
                              call_setTimeout "/guests" 1500 ] |},
           Normal tt)).
Proof.
  split; intros c' x H;
    unfold onSubmit, tryCatch, bind, do_addBooking; rewrite H.
  - reflexivity.
  - unfold do_toast_success, do_reset, do_setRoomType, do_setTimeout, emit;
      cbn [ctx formValues roomTypeState effects].
    rewrite <- !app_assoc. reflexivity.
Qed.

(* ===================================================================== *)
(** * Which message the form holds for each key *)
(* ===================================================================== *)

Lemma firstAt_app (p : Path) (l1 l2 : list ZodIssue) :
  firstAt p (l1 ++ l2)
  = match firstAt p l1 with
    | Some e => Some e
    | None => firstAt p l2
    end.
Proof.
  induction l1 as [|i l1 IH]; simpl; [reflexivity|].
  destruct (pathEqb (path i) p); [reflexivity | exact IH].
Qed.

Lemma firstAt_shaped_other (k k' : Key.t) (l : list ZodIssue) :
  memberShaped [k'] l -> Key.eqb k' k = false -> firstAt [k] l = None.
Proof.
  unfold memberShaped; intros H Hne.
  induction H as [|i l [Hp _] _ IH]; simpl; [reflexivity|].
  rewrite Hp; simpl. rewrite Hne; simpl. exact IH.
Qed.

Lemma firstAt_shaped_same (k : Key.t) (l : list ZodIssue) :
  memberShaped [k] l ->
  firstAt [k] l
  = match l with
    | [] => None
    | i :: _ => Some {| fe_type := code i; fe_message := message i |}
    end.
Proof.
  unfold memberShaped; intros H.
  destruct H as [|i l [Hp _] _]; simpl; [reflexivity|].
  rewrite Hp, pathEqb_refl; reflexivity.
Qed.

Lemma errorsGet_resolver (k : Key.t) (input : RawBooking) :
  errorsGet (errors (zodResolver input)) [k] = firstAt [k] (issuesOf input).
Proof.
  unfold zodResolver.
  destruct (safeParse_cases input) as [(d & -> & ->)|[-> _]]; cbn [errors].
  - reflexivity.
  - rewrite parseErrorSchema_get; reflexivity.
Qed.

Lemma firstAt_refinement (k : Key.t) (input : RawBooking) :
  firstAt [k] (refinementIssues input)
  = if Key.eqb k Key.checkOutDate
       && (wellTyped input && negb (rawDatesInOrder input))
    then Some {| fe_type := custom;
                 fe_message :=
                   Msg "Check-out date must be after check-in date" |}
    else None.
Proof.
  rewrite refinementIssues_cases.
  destruct (wellTyped input && negb (rawDatesInOrder input)); destruct k;
    reflexivity.
Qed.

(** The entry the resolver keeps for a key is the first issue of the key's
    own schema; only when that schema raised none, and the key is
    [checkOutDate], is it the refinement's issue. *)
Lemma firstAt_issuesOf (k : Key.t) (input : RawBooking) :
  firstAt [k] (issuesOf input)
  = match memberIssues k input with
    | i :: _ => Some {| fe_type := code i; fe_message := message i |}
    | [] => firstAt [k] (refinementIssues input)
    end.
Proof.
  rewrite issuesOf_eq, bookingObject_issues, !firstAt_app.
  destruct k;
    repeat match goal with
      | |- context [firstAt [?a] (memberIssues ?b input)] =>
          first
            [ rewrite (firstAt_shaped_other a b _
                         (memberIssues_shaped b input) eq_refl)
            | rewrite (firstAt_shaped_same b _ (memberIssues_shaped b input)) ]
      end;
    match goal with
    | |- context [memberIssues ?b input] =>
        destruct (memberIssues b input); reflexivity
    end.
Qed.

Lemma messageShownOn_eq (k : Key.t) (input : RawBooking) :
  messageShownOn k input
  = match memberIssues k input with
    | i :: _ => Some (message i)
    | [] => if Key.eqb k Key.checkOutDate
               && (wellTyped input && negb (rawDatesInOrder input))
            then Some (Msg "Check-out date must be after check-in date")
            else None
    end.
Proof.
  unfold messageShownOn.
  rewrite errorsGet_resolver, firstAt_issuesOf, firstAt_refinement.
  destruct (memberIssues k input); [|reflexivity].
  destruct (Key.eqb k Key.checkOutDate
            && (wellTyped input && negb (rawDatesInOrder input)));
    reflexivity.
Qed.

Lemma messages_by_key (input : RawBooking) :
  messageShownOn Key.guestName input
  = match raw_guestName input with
    | JString s =>
        if (String.length s <? 2)%nat
        then Some (Msg "Name must be at least 2 characters")
        else if (50 <? String.length s)%nat then Some (Msg "Name too long")
        else None
    | _ => Some DefaultMessage
    end
  /\ messageShownOn Key.roomType input
     = match raw_roomType input with
       | JString s =>
           if existsb (String.eqb s) roomTypes then None
           else Some DefaultMessage
       | JUndefined => Some (Msg "Please select a room type")
       | _ => Some DefaultMessage
       end
  /\ messageShownOn Key.checkInDate input
     = match raw_checkInDate input with
       | JString s =>
           if nonEmpty s then None
           else Some (Msg "Check-in date is required")
       | _ => Some DefaultMessage
       end
  /\ messageShownOn Key.checkOutDate input
     = match raw_checkOutDate input with
       | JString s =>
           if nonEmpty s
           then if wellTyped input && negb (rawDatesInOrder input)
                then Some (Msg "Check-out date must be after check-in date")
                else None
           else Some (Msg "Check-out date is required")
       | _ => Some DefaultMessage
       end
  /\ messageShownOn Key.contactNumber input
     = match raw_contactNumber input with
       | JString s =>
           if regexTest contactNumberRegex s then None
           else Some (Msg "Contact number must be 10 digits")
       | _ => Some DefaultMessage
       end
  /\ messageShownOn Key.email input
     = match raw_email input with
       | JString s =>
           if emailRegex s then None else Some (Msg "Invalid email address")
       | _ => Some DefaultMessage
       end
  /\ messageShownOn Key.idProof input
     = match raw_idProof input with
       | JUndefined | JString _ => None
       | _ => Some DefaultMessage
       end.
Proof.
  rewrite !messageShownOn_eq.
  unfold memberIssues, guestNameSchema, roomTypeSchema, checkInDateSchema,
    checkOutDateSchema, contactNumberSchema, emailSchema, idProofSchema,
    ZodOptional_parse, ZodString_parse, ZodEnum_parse.
  cbn [Key.eqb andb].
  repeat split.
  - destruct (raw_guestName input) as [| | | |s]; try reflexivity.
    cbn [flat_map runCheck snd app].
    destruct (String.length s <? 2)%nat eqn:E1;
      destruct (50 <? String.length s)%nat eqn:E2; try reflexivity.
  - destruct (raw_roomType input) as [| | | |s]; try reflexivity.
    destruct (existsb (String.eqb s) roomTypes); reflexivity.
  - destruct (raw_checkInDate input) as [| | | |s]; try reflexivity.
    destruct s; reflexivity.
  - destruct (raw_checkOutDate input) as [| | | |s]; try reflexivity.
    destruct s; reflexivity.
  - destruct (raw_contactNumber input) as [| | | |s]; try reflexivity.
    cbn [flat_map runCheck snd app].
    destruct (regexTest contactNumberRegex s); reflexivity.
  - destruct (raw_email input) as [| | | |s]; try reflexivity.
    cbn [flat_map runCheck snd app].
    destruct (emailRegex s); reflexivity.
  - destruct (raw_idProof input); reflexivity.
Qed.


(* ===================================================================== *)
(** * Accepted and rejected submissions *)
(* ===================================================================== *)

Lemma errorShownOn_message (k : Key.t) (input : RawBooking) :
  errorShownOn k input
  = match messageShownOn k input with Some _ => true | None => false end.
Proof.
  unfold errorShownOn, messageShownOn.
  destruct (errorsGet (errors (zodResolver input)) [k]); reflexivity.
Qed.

Lemma hasIssues_false (l : list ZodIssue) : hasIssues l = false -> l = [].
Proof. destruct l; [reflexivity | discriminate]. Qed.

Lemma no_reports_no_issues (input : RawBooking) :
  (forall k, reportedOn k (issuesOf input) = false) -> issuesOf input = [].
Proof.
  intros H.
  assert (forall k, memberIssues k input = []) as Hm.
  { intros k. specialize (H k). rewrite reportedOn_issuesOf in H.
    apply orb_false_elim in H as [H _]. apply hasIssues_false; exact H. }
  specialize (H Key.checkOutDate). rewrite reportedOn_issuesOf in H.
  apply orb_false_elim in H as [_ H]. cbn [Key.eqb andb] in H.
  apply hasIssues_false in H.
  rewrite issuesOf_eq, bookingObject_issues, !Hm, H; reflexivity.
Qed.

Lemma some_key_reported (input : RawBooking) :
  issuesOf input <> [] -> exists k, reportedOn k (issuesOf input) = true.
Proof.
  intros Hne.
  destruct (reportedOn Key.guestName (issuesOf input)) eqn:E1;
    [exists Key.guestName; exact E1|].
  destruct (reportedOn Key.roomType (issuesOf input)) eqn:E2;
    [exists Key.roomType; exact E2|].
  destruct (reportedOn Key.checkInDate (issuesOf input)) eqn:E3;
    [exists Key.checkInDate; exact E3|].
  destruct (reportedOn Key.checkOutDate (issuesOf input)) eqn:E4;
    [exists Key.checkOutDate; exact E4|].
  destruct (reportedOn Key.contactNumber (issuesOf input)) eqn:E5;
    [exists Key.contactNumber; exact E5|].
  destruct (reportedOn Key.email (issuesOf input)) eqn:E6;
    [exists Key.email; exact E6|].
  destruct (reportedOn Key.idProof (issuesOf input)) eqn:E7;
    [exists Key.idProof; exact E7|].
  exfalso; apply Hne, no_reports_no_issues.
  intros k; destruct k; assumption.
Qed.

Lemma values_or_errors (input : RawBooking) :
  (exists d, safeParse input = Success d
             /\ values (zodResolver input) = Some d
             /\ errors (zodResolver input) = []
             /\ forall k, errorShownOn k input = false)
  \/ (safeParse input = Failure (issuesOf input)
      /\ values (zodResolver input) = None
      /\ (exists k, errorShownOn k input = true)
      /\ (match raw_idProof input with
          | JUndefined | JString _ => True
          | _ => False
          end ->
          exists k, In k renderedErrorKeys /\ errorShownOn k input = true)).
Proof.
  destruct (safeParse_cases input) as [(d & Hs & Hi)|[Hs Hne]].
  - left. exists d. unfold errorShownOn, zodResolver. rewrite Hs; cbn.
    repeat split; reflexivity.
  - right. split; [exact Hs|]. split.
    { unfold zodResolver; rewrite Hs; reflexivity. }
    destruct (some_key_reported _ Hne) as [k Hk].
    split.
    + exists k. rewrite errorShownOn_reported; exact Hk.
    + intros Hid. exists k. rewrite errorShownOn_reported.
      split; [|exact Hk].
      destruct k; cbn; auto 10.
      exfalso. rewrite <- errorShownOn_reported, errorShownOn_message in Hk.
      destruct (messages_by_key input) as (_ & _ & _ & _ & _ & _ & Ht).
      rewrite Ht in Hk.
      destruct (raw_idProof input); try discriminate; contradiction.
Qed.

(** X2.  The resolver hands back either the validated values with an empty
    [errors] object, or no values and an [errors] object with an entry for
    at least one key.  When [idProof] holds what its input can produce (a
    string, or nothing), a rejected submission has an entry under one of
    the six keys whose message the form renders. *)
Theorem rejected_submission_shows_an_error (input : RawBooking) :
  (exists d, safeParse input = Success d
             /\ values (zodResolver input) = Some d
             /\ errors (zodResolver input) = []
             /\ forall k, errorShownOn k input = false)
  \/ (safeParse input = Failure (issuesOf input)
      /\ values (zodResolver input) = None
      /\ (exists k, errorShownOn k input = true)
      /\ (match raw_idProof input with
          | JUndefined | JString _ => True
          | _ => False
          end ->
          exists k, In k renderedErrorKeys /\ errorShownOn k input = true)).
Proof. exact (values_or_errors input). Qed.

Lemma typedView_toRaw (input : RawBooking) (d : BookingFormData) :
  typedView input = Some d -> input = toRaw d.
Proof.
  intros H. destruct (typedView_fields _ _ H)
    as (H1 & H2 & _ & H3 & H4 & H5 & H6 & H7).
  destruct input; unfold toRaw; cbn in *. congruence.
Qed.

Lemma accepted_is_toRaw (input : RawBooking) (d : BookingFormData) :
  safeParse input = Success d ->
  input = toRaw d
  /\ safeParse (toRaw d) = Success d
  /\ handedToStore (toRaw d) = Some d.
Proof.
  intros Hs.
  assert (input = toRaw d) as Hin.
  { apply safeParse_success in Hs as (Ht & _). apply typedView_toRaw, Ht. }
  rewrite <- Hin. split; [reflexivity|]. split; [exact Hs|].
  unfold handedToStore, zodResolver. rewrite Hs; cbn [values].
  rewrite newBooking_id; reflexivity.
Qed.

(** X3.  Validation changes nothing in what it accepts: the submitted
    object is exactly the accepted data seen as an object, key by key, and
    submitting the accepted data again yields the same data. *)
Theorem accepted_data_revalidates (input : RawBooking) (d : BookingFormData) :
  safeParse input = Success d ->
  input = toRaw d
  /\ safeParse (toRaw d) = Success d
  /\ handedToStore (toRaw d) = Some d.
Proof. exact (accepted_is_toRaw input d). Qed.

Lemma accepted_iff (input : RawBooking) (d : BookingFormData) :
  safeParse input = Success d
  <-> input = toRaw d
      /\ (2 <= String.length (guestName d) <= 50)%nat
      /\ In (roomType d) ["Single"; "Double"; "Deluxe"; "Suite"]
      /\ checkInDate d <> EmptyString /\ checkOutDate d <> EmptyString
      /\ (exists ti tout,
            Date_parse (checkInDate d) = Some ti
            /\ Date_parse (checkOutDate d) = Some tout /\ ti < tout)
      /\ String.length (contactNumber d) = 10%nat
      /\ Forall (fun a => In a digitChars)
                (list_ascii_of_string (contactNumber d))
      /\ emailRegex (email d) = true.
Proof.
  split.
  - intros Hs.
    destruct (accepted_is_toRaw _ _ Hs) as (Hin & _).
    destruct (values_or_errors input)
      as [(d' & _ & _ & _ & Hno)|(Hf & _)]; [|congruence].
    assert (forall k, messageShownOn k input = None) as Hm.
    { intros k. specialize (Hno k). rewrite errorShownOn_message in Hno.
      destruct (messageShownOn k input); [discriminate | reflexivity]. }
    destruct (messages_by_key input) as (T1 & T2 & T3 & T4 & T5 & T6 & _).
    rewrite Hm in T1, T2, T3, T4, T5, T6.
    assert (exists ti tout,
              Date_parse (checkInDate d) = Some ti
              /\ Date_parse (checkOutDate d) = Some tout /\ ti < tout)
      as Hdates.
    { apply safeParse_success in Hs as (_ & _ & Hd).
      unfold datesInOrder in Hd.
      apply Date_gt_spec in Hd as (x & y & Hx & Hy & Hlt).
      exists y, x; auto. }
    rewrite Hin in T1, T2, T3, T4, T5, T6.
    cbn [toRaw raw_guestName raw_roomType raw_checkInDate raw_checkOutDate
         raw_contactNumber raw_email] in T1, T2, T3, T4, T5, T6.
    split; [exact Hin|].
    split.
    { destruct (String.length (guestName d) <? 2)%nat eqn:E1;
        [discriminate|].
      destruct (50 <? String.length (guestName d))%nat eqn:E2;
        [discriminate|].
      apply Nat.ltb_ge in E1, E2. lia. }
    split.
    { apply roomTypes_In.
      destruct (existsb (String.eqb (roomType d)) roomTypes);
        [reflexivity | discriminate]. }
    split. { intros E; rewrite E in T3; discriminate. }
    split. { intros E; rewrite E in T4; discriminate. }
    split; [exact Hdates|].
    assert (regexTest contactNumberRegex (contactNumber d) = true) as Hc.
    { destruct (regexTest contactNumberRegex (contactNumber d));
        [reflexivity | discriminate]. }
    apply contactNumberRegex_spec in Hc as [Hc1 Hc2].
    split; [exact Hc1|]. split; [apply allDigits_spec; exact Hc2|].
    destruct (emailRegex (email d)); [reflexivity | discriminate].
  - intros (Hin & Hg & Hr & Hci & Hco & (ti & tout & Hti & Hto & Hlt)
            & Hc1 & Hc2 & He).
    subst input. apply safeParse_success.
    assert (typedView (toRaw d) = Some d) as Ht.
    { apply roomTypes_In in Hr.
      destruct d as [g r ci co cn em ip]. cbn [roomType] in Hr.
      unfold typedView, toRaw.
      cbn [raw_guestName raw_roomType raw_checkInDate raw_checkOutDate
           raw_contactNumber raw_email raw_idProof asString guestName
           roomType checkInDate checkOutDate contactNumber email idProof].
      rewrite Hr. destruct ip; reflexivity. }
    split; [exact Ht|].
    assert (datesInOrder d = true) as Hd.
    { unfold datesInOrder. rewrite Hti, Hto. cbn. lia. }
    split; [|exact Hd].
    assert (forall k, reportedOn k (issuesOf (toRaw d)) = false) as Hno.
    { intros k. rewrite <- errorShownOn_reported, errorShownOn_message.
      destruct (messages_by_key (toRaw d))
        as (T1 & T2 & T3 & T4 & T5 & T6 & T7).
      assert (rawDatesInOrder (toRaw d) = true) as Hraw
        by (rewrite <- (typedView_dates _ _ Ht); exact Hd).
      rewrite Hraw, andb_false_r in T4.
      cbn [toRaw raw_guestName raw_roomType raw_checkInDate raw_checkOutDate
           raw_contactNumber raw_email raw_idProof] in T1, T2, T3, T4, T5, T6, T7.
      destruct k.
      - rewrite T1.
        replace (String.length (guestName d) <? 2)%nat with false
          by (symmetry; apply Nat.ltb_ge; lia).
        replace (50 <? String.length (guestName d))%nat with false
          by (symmetry; apply Nat.ltb_ge; lia).
        reflexivity.
      - rewrite T2. apply roomTypes_In in Hr. rewrite Hr; reflexivity.
      - rewrite T3. destruct (checkInDate d); [contradiction | reflexivity].
      - rewrite T4. destruct (checkOutDate d); [contradiction | reflexivity].
      - rewrite T5.
        assert (regexTest contactNumberRegex (contactNumber d) = true) as ->
          by (apply contactNumberRegex_spec; split;
              [exact Hc1 | apply allDigits_spec; exact Hc2]).
        reflexivity.
      - rewrite T6, He; reflexivity.
      - rewrite T7. destruct (idProof d); reflexivity. }
    apply no_reports_no_issues in Hno.
    rewrite issuesOf_eq in Hno. apply app_eq_nil in Hno as [Hno _].
    exact Hno.
Qed.


(** X5.  [idProof] is free text: in an accepted submission it can be
    replaced by any string, or removed, and the submission stays accepted
    with the other fields unchanged and [idProof] taken over verbatim. *)
Theorem idProof_is_free_text
    (input : RawBooking) (d : BookingFormData) (s : string) :
  safeParse input = Success d ->
  safeParse (with_idProof (JString s) input)
  = Success {| guestName := guestName d; roomType := roomType d;
               checkInDate := checkInDate d; checkOutDate := checkOutDate d;
               contactNumber := contactNumber d; email := email d;
               idProof := Some s |}
  /\ safeParse (with_idProof JUndefined input)
     = Success {| guestName := guestName d; roomType := roomType d;
                  checkInDate := checkInDate d;
                  checkOutDate := checkOutDate d;
                  contactNumber := contactNumber d; email := email d;
                  idProof := None |}.
Proof.
  intros Hs. apply accepted_iff in Hs
    as (Hin & Hg & Hr & Hci & Hco & Hd & Hc1 & Hc2 & He).
  split; apply accepted_iff; cbn [guestName roomType checkInDate
    checkOutDate contactNumber email idProof];
    (split; [rewrite Hin; reflexivity | auto 10]).
Qed.

(* ===================================================================== *)
(** * Submitting, and the room-type dropdown *)
(* ===================================================================== *)

Lemma onSubmit_outcome (Ctx : Type)
    (addBooking : BookingFormData -> Ctx -> Ctx * Completion unit)
    (data : BookingFormData) (w : World Ctx) :
  onSubmit addBooking data w
  = match addBooking data (ctx w) with
    | (c', Normal _) =>
        ({| ctx := c'; formValues := defaultValues;
            roomTypeState := EmptyString;
            effects := effects w
                       ++ [ toast_success "Booking created successfully!"
                              (String.append "Booking confirmed for "
                                             (guestName data));
                            form_reset;
                            call_setRoomType EmptyString;
                            call_setTimeout "/guests" 1500 ] |},
         Normal tt)
    | (c', Throw _) =>
        ({| ctx := c'; formValues := formValues w;
            roomTypeState := roomTypeState w;
            effects := effects w
                       ++ [ toast_error "Failed to create booking"
                                        "Please try again" ] |},
         Normal tt)
    end.
Proof.
  unfold onSubmit, tryCatch, bind, do_addBooking.
  rewrite newBooking_id.
  destruct (addBooking data (ctx w)) as [c' [u|e]].
  - unfold do_toast_success, do_reset, do_setRoomType, do_setTimeout, emit;
      cbn [ctx formValues roomTypeState effects].
    rewrite <- !app_assoc. reflexivity.
  - reflexivity.
Qed.

(** X6.  Whatever [addBooking] does, [onSubmit] itself never throws; it
    calls [addBooking] once, with the validated data field for field, keeps
    the context exactly as that call left it (also when the call threw),
    and shows exactly one toast. *)
Theorem onSubmit_never_throws (Ctx : Type)
    (addBooking : BookingFormData -> Ctx -> Ctx * Completion unit)
    (data : BookingFormData) (w : World Ctx) :
  snd (onSubmit addBooking data w) = Normal tt
  /\ ctx (fst (onSubmit addBooking data w)) = fst (addBooking data (ctx w))
  /\ exists added,
       effects (fst (onSubmit addBooking data w)) = effects w ++ added
       /\ List.length (List.filter isToast added) = 1%nat.
Proof.
  rewrite onSubmit_outcome.
  destruct (addBooking data (ctx w)) as [c' [u|e]]; cbn [fst snd ctx effects];
    (split; [reflexivity|]; split; [reflexivity|]);
    eexists; split; reflexivity.
Qed.

Lemma safeParse_defaultValues : exists iss, safeParse defaultValues = Failure iss.
Proof. eexists; reflexivity. Qed.


Lemma step_keeps_sync (Ctx : Type)
    (addBooking : BookingFormData -> Ctx -> Ctx * Completion unit)
    (e : FormEvent) (w : World Ctx) :
  roomTypeInSync w -> offered e -> roomTypeInSync (step addBooking e w).
Proof.
  intros Hs He. destruct e as [v|]; cbn [step].
  - right. cbn. split; [reflexivity | exact He].
  - unfold handleSubmit.
    destruct (values (zodResolver (formValues w))) as [d|]; [|exact Hs].
    rewrite onSubmit_outcome.
    destruct (addBooking d (ctx w)) as [c' [u|x]]; cbn [fst].
    + left. split; reflexivity.
    + exact Hs.
Qed.

Lemma runEvents_keeps_sync (Ctx : Type)
    (addBooking : BookingFormData -> Ctx -> Ctx * Completion unit)
    (es : list FormEvent) (w : World Ctx) :
  roomTypeInSync w -> Forall offered es ->
  roomTypeInSync (runEvents addBooking es w).
Proof.
  revert w; induction es as [|e es IH]; intros w Hs Ho; cbn; [exact Hs|].
  apply Forall_cons_iff in Ho as [He Ho].
  apply IH; [apply step_keeps_sync; assumption | exact Ho].
Qed.

Lemma roomType_message (input : RawBooking) :
  messageShownOn Key.roomType input
  = match raw_roomType input with
    | JString s =>
        if existsb (String.eqb s) roomTypes then None
        else Some DefaultMessage
    | JUndefined => Some (Msg "Please select a room type")
    | _ => Some DefaultMessage
    end.
Proof. exact (proj1 (proj2 (messages_by_key input))). Qed.


(* ===================================================================== *)
(** * Routes *)
(* ===================================================================== *)

Lemma lower_canonicalize (a : ascii) :
  asciiLowerChar (canonicalize a) = asciiLowerChar a.
Proof. destruct a as [[] [] [] [] [] [] [] []]; reflexivity. Qed.

Lemma canonicalize_lower (a : ascii) :
  canonicalize (asciiLowerChar a) = canonicalize a.
Proof. destruct a as [[] [] [] [] [] [] [] []]; reflexivity. Qed.

Lemma canonicalize_eqb (a b : ascii) :
  Ascii.eqb (canonicalize a) (canonicalize b)
  = Ascii.eqb (asciiLowerChar a) (asciiLowerChar b).
Proof.
  destruct (Ascii.eqb_spec (canonicalize a) (canonicalize b)) as [H|H];
    destruct (Ascii.eqb_spec (asciiLowerChar a) (asciiLowerChar b)) as [H'|H'];
    try reflexivity; exfalso.
  - apply H'. rewrite <- (lower_canonicalize a), <- (lower_canonicalize b).
    rewrite H; reflexivity.
  - apply H. rewrite <- (canonicalize_lower a), <- (canonicalize_lower b).
    rewrite H'; reflexivity.
Qed.

Lemma lower_slash (a : ascii) : asciiLowerChar a = "/"%char -> a = "/"%char.
Proof.
  destruct a as [[] [] [] [] [] [] [] []]; vm_compute; intros H;
    first [reflexivity | discriminate H].
Qed.

Lemma canonicalize_slash (a : ascii) :
  Ascii.eqb (canonicalize "/") (canonicalize a) = isSlash a.
Proof. destruct a as [[] [] [] [] [] [] [] []]; reflexivity. Qed.

Lemma asciiLower_append (x y : string) :
  asciiLower (String.append x y)
  = String.append (asciiLower x) (asciiLower y).
Proof.
  induction x as [|a x IH]; [reflexivity|].
  change (String (asciiLowerChar a) (asciiLower (String.append x y))
          = String (asciiLowerChar a)
                   (String.append (asciiLower x) (asciiLower y))).
  rewrite IH; reflexivity.
Qed.

Lemma asciiLower_append_inv (p x y : string) :
  asciiLower p = String.append x y ->
  exists pre rest,
    p = String.append pre rest /\ asciiLower pre = x /\ asciiLower rest = y.
Proof.
  revert p; induction x as [|c x IH]; intros p H; cbn in H.
  - exists EmptyString, p; repeat split; assumption.
  - destruct p as [|a p]; cbn in H; [discriminate|].
    injection H as Ha Hp. destruct (IH _ Hp) as (pre & rest & -> & H1 & H2).
    exists (String a pre), rest; cbn. rewrite Ha, H1; repeat split; assumption.
Qed.

Lemma allSlashes_spec (rest : string) :
  allSlashes rest = true <-> exists k, rest = slashes k.
Proof.
  induction rest as [|a rest IH]; cbn.
  - split; [intros _; exists O; reflexivity | reflexivity].
  - rewrite andb_true_iff, IH. unfold isSlash. split.
    + intros [Ha [k ->]]. apply Ascii.eqb_eq in Ha; subst.
      exists (S k); reflexivity.
    + intros [[|k] H]; cbn in H; [discriminate|].
      injection H as -> ->. split; [reflexivity | exists k; reflexivity].
Qed.

Lemma asciiLower_slashes (k : nat) : asciiLower (slashes k) = slashes k.
Proof. induction k as [|k IH]; cbn; [reflexivity | rewrite IH; reflexivity]. Qed.

Lemma asciiLower_is_slashes (r : string) (k : nat) :
  asciiLower r = slashes k -> r = slashes k.
Proof.
  revert k; induction r as [|a r IH]; intros [|k] H; cbn in H;
    try discriminate; [reflexivity|].
  injection H as Ha Hr. apply lower_slash in Ha; subst.
  rewrite (IH _ Hr); reflexivity.
Qed.

Lemma matchStem_spec (stem s rest : string) :
  matchStem stem s = Some rest
  <-> exists pre,
        s = String.append pre rest /\ asciiLower pre = asciiLower stem.
Proof.
  revert s; induction stem as [|c stem IH]; intros s; cbn.
  - split.
    + intros H; injection H as ->. exists EmptyString; split; reflexivity.
    + intros (pre & -> & H). destruct pre; [reflexivity | discriminate].
  - destruct s as [|a s].
    + split; [discriminate|]. intros (pre & H1 & H2).
      destruct pre; cbn in *; discriminate.
    + rewrite canonicalize_eqb.
      destruct (Ascii.eqb_spec (asciiLowerChar c) (asciiLowerChar a)) as [E|E].
      * rewrite IH. split.
        -- intros (pre & -> & H). exists (String a pre); cbn.
           rewrite H, E; split; reflexivity.
        -- intros (pre & H1 & H2). destruct pre as [|b pre]; [discriminate|].
           cbn in H1, H2. injection H1 as -> ->. injection H2 as _ H2.
           exists pre; split; [reflexivity | exact H2].
      * split; [discriminate|]. intros (pre & H1 & H2).
        destruct pre as [|b pre]; [discriminate|].
        cbn in H1, H2. injection H1 as -> ->. injection H2 as H2 _.
        congruence.
Qed.

(** A pattern that is its own lower-case stem matches exactly the paths
    that spell it, in any case, followed by any number of slashes. *)
Lemma matchPath_literal (pattern pathname : string) :
  compilePath pattern = (pattern, tail_slashes) ->
  asciiLower pattern = pattern ->
  matchPath pattern pathname = true
  <-> exists k, asciiLower pathname = String.append pattern (slashes k).
Proof.
  intros Hc Hl. unfold matchPath. rewrite Hc. split.
  - destruct (matchStem pattern pathname) as [rest|] eqn:E; [|discriminate].
    cbn [tailMatches]. intros Hs.
    apply matchStem_spec in E as (pre & -> & Hpre).
    apply allSlashes_spec in Hs as [k ->]. exists k.
    rewrite asciiLower_append, asciiLower_slashes, Hpre, Hl; reflexivity.
  - intros [k H]. apply asciiLower_append_inv in H as (pre & rest & -> & H1 & H2).
    apply asciiLower_is_slashes in H2; subst rest.
    assert (matchStem pattern (String.append pre (slashes k))
            = Some (slashes k)) as ->.
    { apply matchStem_spec. exists pre; split; [reflexivity | congruence]. }
    cbn [tailMatches]. apply allSlashes_spec. exists k; reflexivity.
Qed.

Lemma matchPath_star (pathname : string) :
  matchPath "*" pathname = true
  <-> exists r, pathname = String "/" r /\ noLineTerminator r = true.
Proof.
  unfold matchPath.
  change (compilePath "*") with (String "/" EmptyString, tail_rest).
  destruct pathname as [|a r]; cbn [matchStem].
  - split; [discriminate | intros (r & H & _); discriminate].
  - rewrite canonicalize_slash. unfold isSlash.
    destruct (Ascii.eqb_spec a "/") as [->|E]; cbn [tailMatches].
    + split; [intros H; exists r; auto | intros (r' & H & H'); congruence].
    + split; [discriminate | intros (r' & H & _); congruence].
Qed.

Lemma declared_matchPath (pat : string) (page : Page.t) (pathname : string) :
  In (pat, page) declaredRoutes ->
  matchPath pat pathname = true
  <-> exists k, asciiLower pathname = String.append pat (slashes k).
Proof.
  intros H. cbn in H.
  repeat (destruct H as [H|H];
          [injection H as <- <-; apply matchPath_literal; reflexivity|]).
  contradiction.
Qed.

(** No path spells two declared routes. *)
Lemma declared_exclusive (p1 p2 : string) (g1 g2 : Page.t) (pathname : string) :
  In (p1, g1) declaredRoutes -> In (p2, g2) declaredRoutes ->
  matchPath p1 pathname = true -> matchPath p2 pathname = true ->
  p1 = p2 /\ g1 = g2.
Proof.
  intros H1 H2 M1 M2.
  apply (declared_matchPath _ _ _ H1) in M1 as [k1 E1].
  apply (declared_matchPath _ _ _ H2) in M2 as [k2 E2].
  rewrite E1 in E2. clear E1. cbn in H1, H2.
  repeat (destruct H1 as [H1|H1]; [injection H1 as <- <-|]);
    try contradiction;
    repeat (destruct H2 as [H2|H2]; [injection H2 as <- <-|]);
    try contradiction;
    try (split; reflexivity);
    exfalso; destruct k1, k2; vm_compute in E2; congruence.
Qed.

Lemma ranked_appRoutes :
  map (fun b => (br_pattern b, br_page b))
      (rankRouteBranches (flattenRoutes appRoutes))
  = [ ("/booking", Page.BookingForm); ("/guests", Page.GuestsList);
      ("/check-status", Page.CheckStatus); ("/login", Page.Login);
      ("/", Page.Home); ("*", Page.NotFound) ].
Proof. vm_compute; reflexivity. Qed.

Lemma firstMatch_firstOf (l : list RouteBranch) (pathname : string) :
  firstMatch l pathname
  = firstOf (map (fun b => (br_pattern b, br_page b)) l) pathname.
Proof.
  induction l as [|b l IH]; cbn [firstMatch firstOf map]; [reflexivity|].
  destruct (matchPath (br_pattern b) pathname); [reflexivity | exact IH].
Qed.

Lemma matchRoutes_appRoutes (pathname : string) :
  matchRoutes appRoutes pathname
  = if matchPath "/booking" pathname then Some Page.BookingForm
    else if matchPath "/guests" pathname then Some Page.GuestsList
    else if matchPath "/check-status" pathname then Some Page.CheckStatus
    else if matchPath "/login" pathname then Some Page.Login
    else if matchPath "/" pathname then Some Page.Home
    else if matchPath "*" pathname then Some Page.NotFound
    else None.
Proof.
  unfold matchRoutes. rewrite firstMatch_firstOf, ranked_appRoutes.
  reflexivity.
Qed.

Lemma declared_exclusive_patterns (x y : string) (pathname : string) :
  In x (map fst declaredRoutes) -> In y (map fst declaredRoutes) ->
  matchPath x pathname = true -> matchPath y pathname = true -> x = y.
Proof.
  intros Hx Hy Mx My.
  apply in_map_iff in Hx as ([x' gx] & <- & Hx).
  apply in_map_iff in Hy as ([y' gy] & <- & Hy).
  exact (proj1 (declared_exclusive _ _ _ _ pathname Hx Hy Mx My)).
Qed.

Ltac two_routes_match pathname :=
  match goal with
  | Ex : matchPath ?x pathname = true, Ey : matchPath ?y pathname = true |- _ =>
      let H := fresh in
      assert (x = y) as H
        by (apply (declared_exclusive_patterns x y pathname);
            [ unfold declaredRoutes; simpl map; simpl In; auto 10
            | unfold declaredRoutes; simpl map; simpl In; auto 10
            | exact Ex | exact Ey ]);
      discriminate H
  end.

Lemma matchRoutes_declared (pat : string) (page : Page.t) (pathname : string) :
  In (pat, page) declaredRoutes ->
  matchRoutes appRoutes pathname = Some page <-> matchPath pat pathname = true.
Proof.
  intros Hin. rewrite matchRoutes_appRoutes.
  repeat (destruct Hin as [Hin|Hin]; [injection Hin as <- <-|]);
    try contradiction;
    destruct (matchPath "/booking" pathname) eqn:E1;
    destruct (matchPath "/guests" pathname) eqn:E2;
    destruct (matchPath "/check-status" pathname) eqn:E3;
    destruct (matchPath "/login" pathname) eqn:E4;
    destruct (matchPath "/" pathname) eqn:E5;
    destruct (matchPath "*" pathname) eqn:E6;
    split; intros H; try reflexivity; try discriminate H;
    exfalso; two_routes_match pathname.
Qed.

Lemma matchRoutes_notFound (pathname : string) :
  matchRoutes appRoutes pathname = Some Page.NotFound
  <-> matchPath "*" pathname = true
      /\ forall pat page, In (pat, page) declaredRoutes ->
                          matchPath pat pathname = false.
Proof.
  rewrite matchRoutes_appRoutes. split.
  - intros H. split.
    + destruct (matchPath "/booking" pathname); [discriminate|].
      destruct (matchPath "/guests" pathname); [discriminate|].
      destruct (matchPath "/check-status" pathname); [discriminate|].
      destruct (matchPath "/login" pathname); [discriminate|].
      destruct (matchPath "/" pathname); [discriminate|].
      destruct (matchPath "*" pathname); [reflexivity | discriminate].
    + intros pat page Hin.
      repeat (destruct Hin as [Hin|Hin]; [injection Hin as <- <-|]);
        try contradiction;
        destruct (matchPath "/booking" pathname); try discriminate;
        destruct (matchPath "/guests" pathname); try discriminate;
        destruct (matchPath "/check-status" pathname); try discriminate;
        destruct (matchPath "/login" pathname); try discriminate;
        destruct (matchPath "/" pathname); try discriminate; reflexivity.
  - intros [Hs Hd].
    rewrite (Hd "/booking" Page.BookingForm), (Hd "/guests" Page.GuestsList),
      (Hd "/check-status" Page.CheckStatus), (Hd "/login" Page.Login),
      (Hd "/" Page.Home), Hs;
      try reflexivity; unfold declaredRoutes; simpl In; auto 10.
Qed.


Lemma firstOf_rank_catchAll (n : nat) :
  map (fun b => (br_pattern b, br_page b))
      (rankRouteBranches (flattenRoutes (routesWithCatchAllAt n)))
  = map (fun b => (br_pattern b, br_page b))
        (rankRouteBranches (flattenRoutes appRoutes)).
Proof.
  do 6 (destruct n as [|n]; [vm_compute; reflexivity|]).
  vm_compute; reflexivity.
Qed.

(** X10.  The catch-all route is tried last wherever it is written among
    the declared routes: at every position the table resolves every path to
    the same page as the table in the source. *)
Theorem catchAll_position_is_irrelevant (n : nat) (pathname : string) :
  matchRoutes (routesWithCatchAllAt n) pathname
  = matchRoutes appRoutes pathname.
Proof.
  unfold matchRoutes. rewrite !firstMatch_firstOf, firstOf_rank_catchAll.
  reflexivity.
Qed.

(** X11.  Whatever [addBooking] does, the only navigation [onSubmit] ever
    schedules goes, after 1500 ms, to a path that the route table resolves
    to the guest list. *)
Theorem onSubmit_navigates_to_guest_list (Ctx : Type)
    (addBooking : BookingFormData -> Ctx -> Ctx * Completion unit)
    (data : BookingFormData) (w : World Ctx)
    (added : list Effect) (target : string) (delay : Z) :
  effects (fst (onSubmit addBooking data w)) = effects w ++ added ->
  In (call_setTimeout target delay) added ->
  matchRoutes appRoutes target = Some Page.GuestsList /\ delay = 1500.
Proof.
  rewrite onSubmit_outcome.
  destruct (addBooking data (ctx w)) as [c' [u|e]]; cbn [fst effects];
    intros H Hin; apply app_inv_head in H; subst added;
    simpl In in Hin;
    repeat (destruct Hin as [Hin|Hin]; [try discriminate Hin|]);
    try contradiction.
  injection Hin as <- <-. split; [vm_compute; reflexivity | reflexivity].
Qed.

(* ===================================================================== *)
(** * The earliest date the inputs offer *)
(* ===================================================================== *)

Lemma daysRoundTrip_spec (count : nat) (from day : Z) :
  daysRoundTrip count from = true ->
  from <= day < from + Z.of_nat count ->
  dayRoundTrips day = true.
Proof.
  revert from; induction count as [|n IH]; intros from H Hr;
    cbn [daysRoundTrip] in H; [lia|].
  apply andb_true_iff in H as [H1 H2].
  destruct (Z.eq_dec day from) as [->|Hne]; [exact H1|].
  apply (IH (from + 1)); [exact H2 | lia].
Qed.

Lemma days_until_2100 :
  daysRoundTrip (Z.to_nat (year2100 / msPerDay)) 0 = true.
Proof. vm_compute; reflexivity. Qed.

Lemma beforeFirst_append (sep : ascii) (s1 s2 : string) :
  beforeFirst sep s1 = s1 ->
  beforeFirst sep (String.append s1 (String sep s2)) = s1.
Proof.
  induction s1 as [|a r IH]; intros H.
  - change (beforeFirst sep (String sep s2) = EmptyString).
    cbn [beforeFirst]. rewrite Ascii.eqb_refl; reflexivity.
  - change (beforeFirst sep (String a (String.append r (String sep s2)))
            = String a r).
    cbn [beforeFirst] in *.
    destruct (Ascii.eqb a sep); [discriminate|].
    injection H as H. rewrite (IH H); reflexivity.
Qed.

Lemma minDate_day (now : Z) :
  0 <= now < year2100 ->
  dayRoundTrips (now / msPerDay) = true
  /\ now - now mod msPerDay = now / msPerDay * msPerDay.
Proof.
  unfold year2100, msPerDay. intros Hr.
  split; [|pose proof (Z.div_mod now 86400000); lia].
  apply (daysRoundTrip_spec _ 0 _ days_until_2100).
  unfold year2100, msPerDay.
  change (4102444800000 / 86400000) with 47482.
  rewrite Z2Nat.id by lia.
  split; [apply Z.div_pos; lia|]. apply Z.div_lt_upper_bound; lia.
Qed.

Lemma minDate_parses (now : Z) :
  0 <= now < year2100 ->
  minDate now = isoDatePart (now / msPerDay)
  /\ String.length (minDate now) = 10%nat
  /\ isoDateParse (minDate now) = Some (now - now mod msPerDay).
Proof.
  intros Hr. destruct (minDate_day now Hr) as [Hd He].
  unfold dayRoundTrips in Hd.
  apply andb_true_iff in Hd as [Hd H3].
  apply andb_true_iff in Hd as [H1 H2].
  apply Nat.eqb_eq in H1. apply String.eqb_eq in H2.
  assert (minDate now = isoDatePart (now / msPerDay)) as Hm.
  { unfold minDate, Date_toISOString. apply beforeFirst_append. exact H2. }
  rewrite Hm. split; [reflexivity|]. split; [exact H1|].
  destruct (isoDateParse (isoDatePart (now / msPerDay))) as [t|];
    [|discriminate].
  apply Z.eqb_eq in H3. rewrite H3, He. reflexivity.
Qed.

(** X12.  For every clock reading from 1970 up to 2100, the [min] attribute
    of the two date inputs is the ten-character [YYYY-MM-DD] form of the
    current UTC day, and it parses back to the first instant of that day.
    A stay from that day to the next day's [min] satisfies the cross-field
    comparison. *)
Theorem min_attribute_is_todays_date (now : Z) :
  0 <= now < year2100 ->
  minDate now = isoDatePart (now / msPerDay)
  /\ String.length (minDate now) = 10%nat
  /\ isoDateParse (minDate now) = Some (now - now mod msPerDay)
  /\ (now + msPerDay < year2100 ->
        Date_gt (isoDateParse (minDate (now + msPerDay)))
                (isoDateParse (minDate now)) = true).
Proof.
  intros Hr. destruct (minDate_parses now Hr) as (H1 & H2 & H3).
  split; [exact H1|]. split; [exact H2|]. split; [exact H3|].
  intros Hn.
  assert (0 <= now + msPerDay < year2100) as Hr'
    by (unfold msPerDay in *; lia).
  destruct (minDate_parses _ Hr') as (_ & _ & H3').
  rewrite H3, H3'. cbn [Date_gt]. apply Z.ltb_lt.
  unfold msPerDay.
  replace ((now + 86400000) mod 86400000) with (now mod 86400000)
    by (rewrite <- (Z_mod_plus_full now 1 86400000); f_equal; lia).
  lia.
Qed.


End Schema.

Arguments onSubmit {Ctx} addBooking data w.
Arguments handleSubmit Date_parse emailRegex {Ctx} addBooking w.
Arguments onValueChange {Ctx} value w.
Arguments step Date_parse emailRegex {Ctx} addBooking e w.
Arguments runEvents Date_parse emailRegex {Ctx} addBooking es w.

(* ===================================================================== *)
(** * The statements at concrete submissions *)
(* ===================================================================== *)

(** Departure before arrival with a one-letter name: the cross-field error
    is reported and shown under [checkOutDate]. *)
Lemma checkOut_after_checkIn_rule_witness :
  rawDatesInOrder isoDateParse backwardsShortName = false
  /\ wellTyped backwardsShortName = true
  /\ crossFieldReported
       (issuesOf isoDateParse addressPattern backwardsShortName) = true
  /\ errorShownOn isoDateParse addressPattern Key.checkOutDate
       backwardsShortName = true.
Proof.
  destruct (checkOut_after_checkIn_rule isoDateParse addressPattern
              backwardsShortName) as [H _].
  destruct (H eq_refl) as (_ & _ & H').
  destruct (H' eq_refl) as [H1 H2].
  split; [reflexivity | split; [reflexivity | split; [exact H1 | exact H2]]].
Defined.

(** Same-day stay with no room type chosen: the dates are not in order, yet
    the only error is the one on [roomType]; nothing is reported or shown on
    [checkOutDate]. *)
Lemma same_day_without_room_type :
  rawDatesInOrder isoDateParse sameDayNoRoom = false
  /\ issuesOf isoDateParse addressPattern sameDayNoRoom
     = [ {| code := invalid_type; path := [Key.roomType];
            message := Msg "Please select a room type" |} ]
  /\ reportedOn Key.checkOutDate
       (issuesOf isoDateParse addressPattern sameDayNoRoom) = false
  /\ errorShownOn isoDateParse addressPattern Key.checkOutDate sameDayNoRoom
     = false.
Proof. repeat split; vm_compute; reflexivity. Qed.

(** Unreadable arrival date and a five-digit contact number: both errors
    are reported together. *)
Lemma all_member_errors_reported_witness :
  hasIssues (memberIssues addressPattern Key.contactNumber
               garbledCheckInShortContact) = true
  /\ wellTyped garbledCheckInShortContact = true
  /\ rawDatesInOrder isoDateParse garbledCheckInShortContact = false
  /\ errorShownOn isoDateParse addressPattern Key.contactNumber
       garbledCheckInShortContact = true
  /\ errorShownOn isoDateParse addressPattern Key.checkOutDate
       garbledCheckInShortContact = true.
Proof.
  destruct (all_member_errors_reported isoDateParse addressPattern
              garbledCheckInShortContact) as (_ & Hk & _ & Hx & _).
  destruct (Hk Key.contactNumber eq_refl) as [_ H1].
  destruct (Hx eq_refl eq_refl) as [_ H2].
  split; [reflexivity|]. split; [reflexivity|]. split; [reflexivity|].
  split; [exact H1 | exact H2].
Defined.

(** Departure before arrival and a room type outside the enumeration: two
    rules fail, one error is reported. *)
Lemma backwards_dates_hidden_by_room_type :
  hasIssues (memberIssues addressPattern Key.roomType backwardsPenthouse) = true
  /\ rawDatesInOrder isoDateParse backwardsPenthouse = false
  /\ issuesOf isoDateParse addressPattern backwardsPenthouse
     = [ {| code := invalid_enum_value; path := [Key.roomType];
            message := DefaultMessage |} ]
  /\ errorShownOn isoDateParse addressPattern Key.checkOutDate
       backwardsPenthouse = false.
Proof. repeat split; vm_compute; reflexivity. Qed.

(** Both dates left empty: each is reported on its own key. *)
Lemma date_fields_presence_and_parsing_witness :
  present (raw_checkInDate emptyDates) = false
  /\ present (raw_checkOutDate emptyDates) = false
  /\ reportedOn Key.checkInDate
       (issuesOf isoDateParse addressPattern emptyDates) = true
  /\ reportedOn Key.checkOutDate
       (issuesOf isoDateParse addressPattern emptyDates) = true.
Proof.
  destruct (date_fields_presence_and_parsing isoDateParse addressPattern
              emptyDates) as (H1 & H2 & _).
  split; [reflexivity|]. split; [reflexivity|].
  split; [exact (H1 eq_refl) | exact (H2 eq_refl)].
Defined.

(** ["not-a-date"] as the arrival date: it does not parse, and the one error
    validation reports is on [checkOutDate], none on [checkInDate]. *)
Lemma garbled_checkIn_not_reported_on_checkIn :
  raw_checkInDate garbledCheckIn = JString "not-a-date"
  /\ isoDateParse "not-a-date" = None
  /\ issuesOf isoDateParse addressPattern garbledCheckIn = [crossFieldIssue]
  /\ reportedOn Key.checkInDate
       (issuesOf isoDateParse addressPattern garbledCheckIn) = false
  /\ errorShownOn isoDateParse addressPattern Key.checkInDate garbledCheckIn
     = false.
Proof. repeat split; vm_compute; reflexivity. Qed.

(** ["not-a-date"] as the arrival date of an otherwise sound submission. *)
Lemma unreadable_checkIn_reported_on_checkOut_witness :
  wellTyped garbledCheckIn = true
  /\ isoDateParse "not-a-date" = None
  /\ isoDateParse "2025-06-05" = Some 1749081600000
  /\ crossFieldReported (issuesOf isoDateParse addressPattern garbledCheckIn)
     = true
  /\ errorShownOn isoDateParse addressPattern Key.checkInDate garbledCheckIn
     = false.
Proof.
  destruct (unreadable_checkIn_reported_on_checkOut isoDateParse addressPattern
              garbledCheckIn "not-a-date" "2025-06-05" 1749081600000
              eq_refl eq_refl eq_refl eq_refl eq_refl eq_refl)
    as (_ & H1 & _ & _ & H2).
  split; [reflexivity|]. split; [reflexivity|]. split; [reflexivity|].
  split; [exact H1 | exact H2].
Defined.

(** ["not-a-date"] as the arrival date, a readable departure date, and a
    guest name held as a number: the comparison is never made and nothing is
    reported on [checkOutDate]. *)
Lemma garbled_checkIn_hidden_by_numeric_name :
  raw_checkInDate garbledCheckInNumericName = JString "not-a-date"
  /\ isoDateParse "not-a-date" = None
  /\ raw_checkOutDate garbledCheckInNumericName = JString "2025-06-05"
  /\ isoDateParse "2025-06-05" = Some 1749081600000
  /\ issuesOf isoDateParse addressPattern garbledCheckInNumericName
     = [ {| code := invalid_type; path := [Key.guestName];
            message := DefaultMessage |} ]
  /\ errorShownOn isoDateParse addressPattern Key.checkOutDate
       garbledCheckInNumericName = false.
Proof. repeat split; vm_compute; reflexivity. Qed.

(** Jane Doe's submission reaches the store with the dates as typed. *)
Lemma dates_handed_over_as_submitted_witness :
  handedToStore isoDateParse addressPattern janeDoe = Some janeData
  /\ raw_checkInDate janeDoe = JString (checkInDate janeData)
  /\ raw_checkOutDate janeDoe = JString (checkOutDate janeData).
Proof.
  destruct (dates_handed_over_as_submitted isoDateParse addressPattern
              janeDoe janeData eq_refl) as (_ & _ & H1 & H2).
  split; [reflexivity | split; [exact H1 | exact H2]].
Defined.

(** Two accepted submissions for the same arrival day, 1 June 2025: the
    store is handed ["2025-06-01"] for one and ["2025-06"] for the other. *)
Lemma same_day_two_representations :
  handedToStore isoDateParse addressPattern janeDoe = Some janeData
  /\ handedToStore isoDateParse addressPattern monthOnlyCheckIn
     = Some {| guestName := "Jane Doe"; roomType := "Suite";
               checkInDate := "2025-06"; checkOutDate := "2025-06-05";
               contactNumber := "9876543210"; email := "jane@example.com";
               idProof := None |}
  /\ isoDateParse "2025-06" = isoDateParse (checkInDate janeData)
  /\ "2025-06" <> checkInDate janeData.
Proof. repeat split; try (vm_compute; reflexivity). discriminate. Qed.

(** The two contact numbers of the specification. *)
Lemma contactNumber_exactly_ten_digits_witness :
  reportedOn Key.contactNumber
    (issuesOf isoDateParse addressPattern shortContact) = true
  /\ errorShownOn isoDateParse addressPattern Key.contactNumber shortContact
     = true
  /\ reportedOn Key.contactNumber
       (issuesOf isoDateParse addressPattern janeDoe) = false.
Proof.
  destruct (contactNumber_exactly_ten_digits isoDateParse addressPattern
              janeDoe) as (_ & _ & H1 & H2).
  destruct (contactNumber_exactly_ten_digits isoDateParse addressPattern
              shortContact) as (_ & H3 & _).
  split; [exact H1 | split; [exact (proj1 (H3 H1)) | exact H2]].
Defined.

(** No room type chosen: the error is shown under [roomType]. *)
Lemma roomType_must_be_enumerated_witness :
  reportedOn Key.roomType
    (issuesOf isoDateParse addressPattern sameDayNoRoom) = true
  /\ errorShownOn isoDateParse addressPattern Key.roomType sameDayNoRoom = true.
Proof.
  destruct (roomType_must_be_enumerated isoDateParse addressPattern
              sameDayNoRoom) as (_ & H & _).
  split; [reflexivity | exact (proj1 (H eq_refl))].
Defined.

(** A checked-out booking cannot be confirmed again. *)
Lemma transition_follows_lifecycle_witness :
  bookings archiveStore !! 1%N = Some janeCheckedOut
  /\ transition 1 Confirmed 1749168000000 archiveStore
     = (archiveStore, Err InvalidTransition).
Proof.
  assert (bookings archiveStore !! 1%N = Some janeCheckedOut) as H
    by apply lookup_singleton_eq.
  destruct (transition_follows_lifecycle archiveStore 1 janeCheckedOut
              Confirmed 1749168000000 H) as (_ & _ & _ & Ht).
  split; [exact H | exact (Ht (or_introl eq_refl))].
Defined.

(** Jane Doe's submission is accepted into the empty store. *)
Lemma create_assigns_fresh_identity_witness :
  safeParse isoDateParse addressPattern janeDoe = Success janeData
  /\ exists b s',
       create isoDateParse addressPattern janeDoe 1748736000000 emptyStore
       = (s', Ok b)
       /\ status b = Confirmed /\ details b = janeData
       /\ findById (booking_id b) s' = Ok b.
Proof.
  destruct (create_assigns_fresh_identity isoDateParse addressPattern
              janeDoe 1748736000000 emptyStore) as [H _].
  destruct (H janeData eq_refl)
    as (b & s' & Hc & _ & _ & Hs & Hd & _ & Hf & _).
  split; [reflexivity|].
  exists b, s'.
  split; [exact Hc|]. split; [exact Hs|]. split; [exact Hd | exact Hf].
Defined.

(** A blank guest name makes the sample [addBooking] throw: the form keeps
    its values and only the failure toast is shown. *)
Lemma onSubmit_resets_only_after_addBooking_returns_witness :
  sampleAddBooking (newBooking blankData) (ctx sampleWorld)
  = ([], Throw (JString "blank guest name"))
  /\ formValues (fst (onSubmit sampleAddBooking blankData sampleWorld))
     = janeDoe
  /\ roomTypeState (fst (onSubmit sampleAddBooking blankData sampleWorld))
     = "Suite"
  /\ effects (fst (onSubmit sampleAddBooking blankData sampleWorld))
     = [ toast_error "Failed to create booking" "Please try again" ]
  /\ effects (fst (onSubmit sampleAddBooking janeData sampleWorld))
     = [ toast_success "Booking created successfully!"
           "Booking confirmed for Jane Doe";
         form_reset; call_setRoomType ""; call_setTimeout "/guests" 1500 ].
Proof.
  destruct (onSubmit_resets_only_after_addBooking_returns
              (list BookingFormData) sampleAddBooking blankData sampleWorld)
    as [Hthrow _].
  destruct (onSubmit_resets_only_after_addBooking_returns
              (list BookingFormData) sampleAddBooking janeData sampleWorld)
    as [_ Hret].
  rewrite (Hthrow [] (JString "blank guest name") eq_refl).
  rewrite (Hret [janeData] tt eq_refl).
  split; [reflexivity|]. split; [reflexivity|]. split; [reflexivity|].
  split; reflexivity.
Defined.

(* ===================================================================== *)
(** * Further statements at concrete inputs *)
(* ===================================================================== *)

(** No room type chosen: the rejected submission has an error under one of
    the keys the form renders. *)
Lemma rejected_submission_shows_an_error_witness :
  raw_idProof sameDayNoRoom = JUndefined
  /\ exists k, In k renderedErrorKeys
               /\ errorShownOn isoDateParse addressPattern k sameDayNoRoom
                  = true.
Proof.
  split; [reflexivity|].
  destruct (rejected_submission_shows_an_error isoDateParse addressPattern
              sameDayNoRoom) as [(d & Hs & _)|(_ & _ & _ & H)].
  - vm_compute in Hs. discriminate Hs.
  - exact (H I).
Defined.

(** Jane Doe's accepted data, submitted again. *)
Lemma accepted_data_revalidates_witness :
  safeParse isoDateParse addressPattern janeDoe = Success janeData
  /\ janeDoe = toRaw janeData
  /\ safeParse isoDateParse addressPattern (toRaw janeData) = Success janeData.
Proof.
  destruct (accepted_data_revalidates isoDateParse addressPattern
              janeDoe janeData eq_refl) as (H1 & H2 & _).
  split; [reflexivity | split; [exact H1 | exact H2]].
Defined.


(** Jane Doe's submission with a passport reference added. *)
Lemma idProof_is_free_text_witness :
  safeParse isoDateParse addressPattern janeDoe = Success janeData
  /\ safeParse isoDateParse addressPattern
       (with_idProof (JString "passport P1234567") janeDoe)
     = Success {| guestName := "Jane Doe"; roomType := "Suite";
                  checkInDate := "2025-06-01"; checkOutDate := "2025-06-05";
                  contactNumber := "9876543210";
                  email := "jane@example.com";
                  idProof := Some "passport P1234567" |}.
Proof.
  destruct (idProof_is_free_text isoDateParse addressPattern janeDoe janeData
              "passport P1234567" eq_refl) as [H _].
  split; [reflexivity | exact H].
Defined.




(** Jane Doe's booking goes through: the navigation scheduled is the one to
    the guest list. *)
Lemma onSubmit_navigates_to_guest_list_witness :
  effects (fst (onSubmit sampleAddBooking janeData sampleWorld))
  = effects sampleWorld
    ++ [ toast_success "Booking created successfully!"
           "Booking confirmed for Jane Doe";
         form_reset; call_setRoomType ""; call_setTimeout "/guests" 1500 ]
  /\ matchRoutes appRoutes "/guests" = Some Page.GuestsList.
Proof.
  assert (effects (fst (onSubmit sampleAddBooking janeData sampleWorld))
          = effects sampleWorld
            ++ [ toast_success "Booking created successfully!"
                   "Booking confirmed for Jane Doe";
                 form_reset; call_setRoomType "";
                 call_setTimeout "/guests" 1500 ]) as He
    by reflexivity.
  destruct (onSubmit_navigates_to_guest_list (list BookingFormData)
              sampleAddBooking janeData sampleWorld _ "/guests" 1500 He)
    as [H _].
  - right; right; right; left; reflexivity.
  - split; [exact He | exact H].
Defined.

(** Mid-morning of 1 June 2025. *)
Lemma min_attribute_is_todays_date_witness :
  0 <= 1748771696789 < year2100
  /\ minDate 1748771696789 = isoDatePart 20240
  /\ isoDateParse (minDate 1748771696789) = Some 1748736000000.
Proof.
  assert (0 <= 1748771696789 < year2100) as Hr by (unfold year2100; lia).
  destruct (min_attribute_is_todays_date 1748771696789 Hr)
    as (H1 & _ & H3 & _).
  split; [exact Hr | split; [exact H1 | exact H3]].
Defined.
